(** * cvrp.ui.main: the solve job, its trigger and the start-up check

    A shallow embedding of [src/cvrp/ui/main.py].  Python methods become
    computations in a small monad that threads the receiver ([self]),
    records every call that leaves the module (Qt, the file system, the
    pipeline collaborators) in a log, and carries Python exceptions as an
    outcome.  The collaborators imported from the rest of the package are
    fields of a [World]: each theorem quantifies over all of them. *)

From Stdlib Require Import List String Ascii ZArith Bool Lia DecimalString.
Import ListNotations.
Open Scope string_scope.
Open Scope Z_scope.

(** ** Python exceptions *)

(** Exceptions that are not the package's own [CVRPException].
    [EnvironmentError] is an alias of [OSError] in Python 3; [SystemExit]
    is what [sys.exit] raises. *)
Inductive fault : Type :=
| OSError (what : string)
| SystemExit (code : Z)
| OtherError (cls : string).

Inductive exn : Type :=
| CVRPException (message : string)
| Fault (f : fault).

Inductive outcome (A : Type) : Type :=
| Ret (a : A)
| Raise (e : exn).
Arguments Ret {A} a.
Arguments Raise {A} e.

Definition returned {A} (o : outcome A) : bool :=
  match o with Ret _ => true | Raise _ => false end.

(** What a standard-library or Qt call does when it can only fail with
    an exception foreign to the package. *)
Definition lift_fault (r : option fault) : outcome unit :=
  match r with None => Ret tt | Some f => Raise (Fault f) end.

(** ** Domain data (cvrp.data) *)

(** Modelled from the spec: [cvrp.data.Place] is not part of the sources;
    a place is an object with a name, compared by identity. *)
Record Place : Type := mkPlace { place_oid : positive; place_name : string }.

(** Modelled from the spec: [cvrp.data.Vehicle], compared by identity. *)
Record Vehicle : Type := mkVehicle { vehicle_oid : positive; vehicle_name : string }.

Definition place_eqb (p q : Place) : bool := Pos.eqb (place_oid p) (place_oid q).
Definition vehicle_eqb (u v : Vehicle) : bool := Pos.eqb (vehicle_oid u) (vehicle_oid v).

(** Modelled from the spec: [cvrp.data.Network] holds one depot, the
    ordered clients and the ordered vehicles. *)
Record Network : Type := mkNetwork {
  depot : Place;
  clients : list Place;
  vehicles : list Vehicle
}.

(** Modelled from the spec: the derived view [all_places] is the depot
    followed by the clients. *)
Definition all_places (n : Network) : list Place := depot n :: clients n.

(** Modelled from the spec: [Network.remove_client] removes the first
    identity-equal client; what happens when there is none is left to the
    implementer (nothing, or a not-found failure), and the depot field is
    not guarded inside the network. *)
Inductive absent_policy : Type := AbsentIsNoOp | AbsentFails.

Fixpoint remove_first (p : Place) (l : list Place) : option (list Place) :=
  match l with
  | [] => None
  | q :: l' =>
      if place_eqb q p then Some l'
      else match remove_first p l' with
           | Some r => Some (q :: r)
           | None => None
           end
  end.

Definition remove_client (pol : absent_policy) (n : Network) (p : Place)
  : outcome Network :=
  match remove_first p (clients n) with
  | Some l => Ret (mkNetwork (depot n) l (vehicles n))
  | None =>
      match pol with
      | AbsentIsNoOp => Ret n
      | AbsentFails => Raise (Fault (OtherError "ValueError"))
      end
  end.

(** Modelled from the spec: the invariant of a network, the depot is
    not one of the clients. *)
Definition depot_distinct (n : Network) : Prop :=
  forall c, In c (clients n) -> place_eqb c (depot n) = false.

(** Opaque values handed from one pipeline stage to the next. *)
Inductive CVRPModel : Type := ModelObj (oid : positive).
Inductive SolveResult : Type := ResultObj (oid : positive).

(** ** Qt objects the module creates *)

Inductive Icon : Type := NoIcon | Information | Warning | Critical.
Inductive WindowModality : Type := NonModal | WindowModal | ApplicationModal.
Inductive ConnectionType : Type := AutoConnection | DirectConnection | QueuedConnection.
Inductive QArg : Type := Q_ARG_int (v : Z) | Q_ARG_str (s : string).

Record QMessageBox : Type := mkMessageBox {
  mb_icon : Icon;
  mb_title : string;
  mb_text : string
}.

Definition QMessageBox_new : QMessageBox := mkMessageBox NoIcon "" "".
Definition setIcon (i : Icon) (m : QMessageBox) : QMessageBox :=
  mkMessageBox i (mb_title m) (mb_text m).
Definition mb_setWindowTitle (t : string) (m : QMessageBox) : QMessageBox :=
  mkMessageBox (mb_icon m) t (mb_text m).
Definition setText (t : string) (m : QMessageBox) : QMessageBox :=
  mkMessageBox (mb_icon m) (mb_title m) t.

Record QProgressDialog : Type := mkProgressDialog {
  pd_label : string;
  pd_cancel : string;
  pd_minimum : Z;
  pd_maximum : Z;
  pd_title : string;
  pd_modality : WindowModality
}.

Definition QProgressDialog_new (label cancel : string) (lo hi : Z) : QProgressDialog :=
  mkProgressDialog label cancel lo hi "" NonModal.
Definition pd_setWindowTitle (t : string) (d : QProgressDialog) : QProgressDialog :=
  mkProgressDialog (pd_label d) (pd_cancel d) (pd_minimum d) (pd_maximum d) t (pd_modality d).
Definition setWindowModality (m : WindowModality) (d : QProgressDialog) : QProgressDialog :=
  mkProgressDialog (pd_label d) (pd_cancel d) (pd_minimum d) (pd_maximum d) (pd_title d) m.

Record QPushButton : Type := mkPushButton {
  pb_text : string;
  pb_disabled : bool
}.

Definition setDisabled (b : bool) (p : QPushButton) : QPushButton :=
  mkPushButton (pb_text p) b.

(** [PlaceListItem]: a list row carrying its place. *)
Record PlaceListItem : Type := mkPlaceListItem {
  item_text : string;
  place : Place;
  removable : bool
}.

Definition PlaceListItem_init (p : Place) (removable : bool) : PlaceListItem :=
  mkPlaceListItem (place_name p) p removable.

(** [PlaceList]: the rows and Qt's current item. *)
Record PlaceList : Type := mkPlaceList {
  items : list PlaceListItem;
  current_item : option PlaceListItem
}.

(** [PlacesTabWidget]: the shared network, two of the action buttons and
    the list. *)
Record PlacesTabWidget : Type := mkPlacesTab {
  tab_network : Network;
  ab_edit : QPushButton;
  ab_remove : QPushButton;
  items_list : PlaceList
}.

(** [MainWidget]: the shared network and the solve button. *)
Record MainWidget : Type := mkMainWidget {
  mw_network : Network;
  solve : QPushButton
}.

(** [ModelSolveRunnable]: the fields set by [__init__]. *)
Record ModelSolveRunnable : Type := mkRunnable {
  network : Network;
  bar : QProgressDialog;
  progress : Z
}.

Definition ModelSolveRunnable_init (n : Network) (progress_bar : QProgressDialog)
  : ModelSolveRunnable :=
  mkRunnable n progress_bar 0.

(** ** Calls that leave the module *)

Inductive event : Type :=
| EvInvokeMethod (target : QProgressDialog) (member : string)
                 (conn : ConnectionType) (arg : QArg)
| EvBuildModel (n : Network)
| EvSolveModel (m : CVRPModel)
| EvGenerateReport (m : CVRPModel) (r : SolveResult)
| EvOpen (path mode : string)
| EvFileWrite (path content : string)
| EvFileClose (path : string)
| EvWebbrowserOpen (path : string)
| EvMsleep (ms : Z)
| EvMessageBoxExec (m : QMessageBox)
| EvBarClose (d : QProgressDialog)
| EvSetDisabled (button : string) (b : bool)
| EvRemoveClient (p : Place)
| EvCheckSolvability (n : Network)
| EvDialogCreate (d : QProgressDialog)
| EvDialogShow (d : QProgressDialog)
| EvThreadPoolStart (r : ModelSolveRunnable)
| EvQApplication
| EvMainWindowCreate (n : Network)
| EvGetSolvers
| EvMainShow
| EvAppExec
| EvSysExit (code : Z).

(** ** Dates and [strftime] *)

Record datetime : Type := mkDatetime {
  year : Z; month : Z; day : Z; hour : Z; minute : Z; second : Z
}.

Definition digit_char (d : Z) : ascii := ascii_of_nat (48 + Z.to_nat d).

(** [n] in decimal on exactly [width] digits, zero filled. *)
Fixpoint zero_pad (width : nat) (n : Z) : string :=
  match width with
  | O => ""
  | S k => zero_pad k (n / 10) ++ String (digit_char (n mod 10)) ""
  end.

(** [n] in decimal with no padding: what the C library prints for [%Y]
    (platforms that zero-fill the year agree with it from year 1000 on). *)
Definition decimal (n : Z) : string := NilZero.string_of_int (Z.to_int n).

Definition directive (c : ascii) (d : datetime) : string :=
  if Ascii.eqb c "Y" then decimal (year d)
  else if Ascii.eqb c "m" then zero_pad 2 (month d)
  else if Ascii.eqb c "d" then zero_pad 2 (day d)
  else if Ascii.eqb c "H" then zero_pad 2 (hour d)
  else if Ascii.eqb c "M" then zero_pad 2 (minute d)
  else if Ascii.eqb c "S" then zero_pad 2 (second d)
  else String "%" (String c "").

Fixpoint strftime (fmt : string) (d : datetime) : string :=
  match fmt with
  | EmptyString => ""
  | String c rest =>
      if Ascii.eqb c "%" then
        match rest with
        | EmptyString => "%"
        | String k rest' => directive k d ++ strftime rest' d
        end
      else String c (strftime rest d)
  end.

(** ** The world outside the module *)

Record World : Type := mkWorld {
  (* cvrp.model, cvrp.solver, cvrp.report *)
  build_model : Network -> outcome CVRPModel;
  solve_model : CVRPModel -> outcome SolveResult;
  generate_report : CVRPModel -> SolveResult -> outcome string;
  check_solvability : Network -> outcome unit;
  get_solvers : outcome unit;
  default_network : Network;
  remove_absent : absent_policy;
  (* datetime, os.path *)
  datetime_now : datetime;
  expanduser : string -> string;
  os_path_join : string -> string -> string;
  (* builtins.open, file objects, webbrowser *)
  py_open : string -> string -> option fault;
  file_write : string -> string -> option fault;
  file_close : string -> option fault;
  webbrowser_open : string -> option fault;
  (* QApplication.exec *)
  app_exec : Z
}.

(** ** The monad: receiver, log, outcome *)

Record res (S A : Type) : Type := mkRes {
  out : outcome A;
  self_after : S;
  log : list event
}.
Arguments mkRes {S A} out self_after log.
Arguments out {S A} r.
Arguments self_after {S A} r.
Arguments log {S A} r.

Definition M (S A : Type) : Type := S -> res S A.

Definition ret {S A} (a : A) : M S A := fun s => mkRes (Ret a) s [].
Definition raise {S A} (e : exn) : M S A := fun s => mkRes (Raise e) s [].

Definition bind {S A B} (m : M S A) (k : A -> M S B) : M S B :=
  fun s =>
    let r := m s in
    match out r with
    | Ret a =>
        let r' := k a (self_after r) in
        mkRes (out r') (self_after r') (log r ++ log r')
    | Raise e => mkRes (Raise e) (self_after r) (log r)
    end.

Declare Scope py_scope.
Delimit Scope py_scope with py.
Notation "x <- m ;; k" := (bind m (fun x => k))
  (at level 100, m at next level, right associativity) : py_scope.
Notation "m ;; k" := (bind m (fun _ => k))
  (at level 100, right associativity) : py_scope.
Open Scope py_scope.

Definition get {S} : M S S := fun s => mkRes (Ret s) s [].
Definition put {S} (s' : S) : M S unit := fun _ => mkRes (Ret tt) s' [].
Definition emit {S} (e : event) : M S unit := fun s => mkRes (Ret tt) s [e].
Definition of_outcome {S A} (o : outcome A) : M S A := fun s => mkRes o s [].

(** An external call: logged, then its outcome. *)
Definition call {S A} (e : event) (o : outcome A) : M S A :=
  emit e ;; of_outcome o.

(** [try: body  except CVRPException as exc: handler(exc.message)] *)
Definition try_except_CVRPException {S A} (body : M S A) (handler : string -> M S A)
  : M S A :=
  fun s =>
    let r := body s in
    match out r with
    | Raise (CVRPException message) =>
        let r' := handler message (self_after r) in
        mkRes (out r') (self_after r') (log r ++ log r')
    | _ => r
    end.

(** [try: body  except EnvironmentError: handler] *)
Definition try_except_EnvironmentError {S A} (body : M S A) (handler : M S A)
  : M S A :=
  fun s =>
    let r := body s in
    match out r with
    | Raise (Fault (OSError _)) =>
        let r' := handler (self_after r) in
        mkRes (out r') (self_after r') (log r ++ log r')
    | _ => r
    end.

(** [try: body  finally: fin]: [fin] runs whatever [body] did; the
    outcome is [body]'s unless [fin] itself raises. *)
Definition try_finally {S A} (body : M S A) (fin : M S unit) : M S A :=
  fun s =>
    let r := body s in
    let r' := fin (self_after r) in
    mkRes (match out r' with Ret _ => out r | Raise e => Raise e end)
          (self_after r') (log r ++ log r').

(** ** ModelSolveRunnable *)

Section Program.

Variable w : World.

(** The error dialog both handlers build: a critical box titled "Error". *)
Definition show_error {S} (text : string) : M S unit :=
  let msg := QMessageBox_new in
  let msg := setIcon Critical msg in
  let msg := mb_setWindowTitle "Error" msg in
  let msg := setText text msg in
  emit (EvMessageBoxExec msg).

Definition invokeMethod {S} (target : QProgressDialog) (member : string)
    (conn : ConnectionType) (arg : QArg) : M S unit :=
  emit (EvInvokeMethod target member conn arg).

Definition set_bar_status (value : Z) (label : string) : M ModelSolveRunnable unit :=
  self <- get ;;
  invokeMethod (bar self) "setValue" QueuedConnection (Q_ARG_int value) ;;
  invokeMethod (bar self) "setLabelText" QueuedConnection (Q_ARG_str label).

(** [with open(path, mode) as file: body(file)]: the file is closed on the
    way out of the block, also when the block raises. *)
Definition with_open {S A} (path mode : string) (body : string -> M S A) : M S A :=
  call (EvOpen path mode) (lift_fault (py_open w path mode)) ;;
  try_finally (body path)
              (call (EvFileClose path) (lift_fault (file_close w path))).

Definition write (file report : string) : M ModelSolveRunnable unit :=
  call (EvFileWrite file report) (lift_fault (file_write w file report)).

Definition report_file_name (now : datetime) : string :=
  "report-" ++ strftime "%Y-%m-%d_%H.%M.%S" now ++ ".html".

Definition run_body : M ModelSolveRunnable unit :=
  self <- get ;;
  set_bar_status (progress self) "Building model..." ;;
  model <- call (EvBuildModel (network self)) (build_model w (network self)) ;;
  set_bar_status 1 "Searching for a solution..." ;;
  result <- call (EvSolveModel model) (solve_model w model) ;;
  set_bar_status 2 "Generating report..." ;;
  report <- call (EvGenerateReport model result) (generate_report w model result) ;;
  let file_name := report_file_name (datetime_now w) in
  let home := expanduser w "~" in
  let abs_file_path := os_path_join w home file_name in
  with_open abs_file_path "w" (fun file => write file report) ;;
  call (EvWebbrowserOpen abs_file_path) (lift_fault (webbrowser_open w abs_file_path)) ;;
  emit (EvMsleep 500).

Definition run : M ModelSolveRunnable unit :=
  try_finally
    (try_except_CVRPException run_body (fun message => show_error message))
    (self <- get ;; emit (EvBarClose (bar self))).

(** ** MainWidget *)

Definition solve_setDisabled (b : bool) : M MainWidget unit :=
  self <- get ;;
  emit (EvSetDisabled "solve" b) ;;
  put (mkMainWidget (mw_network self) (setDisabled b (solve self))).

Definition on_click_solve : M MainWidget unit :=
  solve_setDisabled true ;;
  try_except_CVRPException
    (self <- get ;;
     call (EvCheckSolvability (mw_network self))
          (check_solvability w (mw_network self)) ;;
     let dialog := QProgressDialog_new "" "Cancel" 0 3 in
     emit (EvDialogCreate dialog) ;;
     let dialog := pd_setWindowTitle "Solving Problem" dialog in
     let dialog := setWindowModality WindowModal dialog in
     emit (EvDialogShow dialog) ;;
     let runnable := ModelSolveRunnable_init (mw_network self) dialog in
     emit (EvThreadPoolStart runnable))
    (fun message => show_error message) ;;
  solve_setDisabled false.

(** Qt delivers [clicked] only while the button is enabled. *)
Definition click_solve : M MainWidget unit :=
  self <- get ;;
  if pb_disabled (solve self) then ret tt else on_click_solve.

(** ** launch_ui *)

(** The [return] inside the handler is the [false] branch below. *)
Definition launch_ui (network : option Network) : M unit unit :=
  let network :=
    match network with None => default_network w | Some n => n end in
  emit EvQApplication ;;
  emit (EvMainWindowCreate network) ;;
  proceed <- try_except_EnvironmentError
               (call EvGetSolvers (get_solvers w) ;; ret true)
               (show_error "No available solvers" ;; ret false) ;;
  if (proceed : bool) then
    emit EvMainShow ;;
    emit EvAppExec ;;
    call (EvSysExit (app_exec w)) (Raise (Fault (SystemExit (app_exec w))))
  else ret tt.

(** ** PlacesTabWidget *)

Definition is_selected_item_valid (item : option PlaceListItem) : bool :=
  match item with Some _ => true | None => false end.

Definition ab_remove_setDisabled (b : bool) : M PlacesTabWidget unit :=
  self <- get ;;
  emit (EvSetDisabled "ab_remove" b) ;;
  put (mkPlacesTab (tab_network self) (ab_edit self)
                   (setDisabled b (ab_remove self)) (items_list self)).

Definition ab_edit_setDisabled (b : bool) : M PlacesTabWidget unit :=
  self <- get ;;
  emit (EvSetDisabled "ab_edit" b) ;;
  put (mkPlacesTab (tab_network self) (setDisabled b (ab_edit self))
                   (ab_remove self) (items_list self)).

(** [ListTabWidget.update_action_buttons] *)
Definition super_update_action_buttons (item : option PlaceListItem)
  : M PlacesTabWidget unit :=
  let is_item_invalid := Bool.eqb (is_selected_item_valid item) false in
  ab_remove_setDisabled is_item_invalid ;;
  ab_edit_setDisabled is_item_invalid.

(** [PlacesTabWidget.update_action_buttons] *)
Definition update_action_buttons (item : option PlaceListItem)
  : M PlacesTabWidget unit :=
  super_update_action_buttons item ;;
  match item with
  | Some it =>
      self <- get ;;
      let is_depot_selected := place_eqb (place it) (depot (tab_network self)) in
      ab_remove_setDisabled is_depot_selected
  | None => ret tt
  end.

(** [PlaceList.update_places]: the list is rebuilt from [all_places];
    [clear] drops the current item. *)
Definition update_places : M PlacesTabWidget unit :=
  self <- get ;;
  put (mkPlacesTab (tab_network self) (ab_edit self) (ab_remove self)
         (mkPlaceList (map (fun p => PlaceListItem_init p true)
                           (all_places (tab_network self)))
                      None)).

Definition on_editor_close : M PlacesTabWidget unit :=
  update_places ;;
  update_action_buttons None.

Definition on_item_remove (item : PlaceListItem) : M PlacesTabWidget unit :=
  self <- get ;;
  n' <- call (EvRemoveClient (place item))
             (remove_client (remove_absent w) (tab_network self) (place item)) ;;
  put (mkPlacesTab n' (ab_edit self) (ab_remove self) (items_list self)) ;;
  on_editor_close.

(** [ListTabWidget.__remove_item], the slot of the Remove button. *)
Definition remove_item : M PlacesTabWidget unit :=
  self <- get ;;
  match current_item (items_list self) with
  | Some item => on_item_remove item
  | None => ret tt
  end.

(** [itemClicked] is connected to [update_action_buttons]; the clicked
    item becomes the current one. *)
Definition item_clicked (item : PlaceListItem) : M PlacesTabWidget unit :=
  self <- get ;;
  put (mkPlacesTab (tab_network self) (ab_edit self) (ab_remove self)
         (mkPlaceList (items (items_list self)) (Some item))) ;;
  update_action_buttons (Some item).

(** Qt delivers the Remove button's [clicked] only while it is enabled. *)
Definition click_remove : M PlacesTabWidget unit :=
  self <- get ;;
  if pb_disabled (ab_remove self) then ret tt else remove_item.

End Program.

(** ** A session of clicks on the solve button *)

(** One world per click: the collaborators may answer differently each
    time.  An exception that leaves a slot does not change the widgets. *)
Fixpoint clicks (ws : list World) (s : MainWidget) : MainWidget * list event :=
  match ws with
  | [] => (s, [])
  | w :: ws' =>
      let r := click_solve w s in
      let rest := clicks ws' (self_after r) in
      (fst rest, (log r ++ snd rest)%list)
  end.

(** ** Reading a log *)

Definition is_cleanup (e : event) : bool :=
  match e with EvBarClose _ => true | _ => false end.

Definition is_error_surface (e : event) : bool :=
  match e with EvMessageBoxExec _ => true | _ => false end.

Definition is_file_create (e : event) : bool :=
  match e with EvOpen _ _ => true | _ => false end.

Definition is_file_event (e : event) : bool :=
  match e with
  | EvOpen _ _ | EvFileWrite _ _ | EvFileClose _ => true
  | _ => false
  end.

Definition is_stage (e : event) : bool :=
  match e with
  | EvBuildModel _ | EvSolveModel _ | EvGenerateReport _ _ => true
  | _ => false
  end.

Definition is_progress_or_stage (e : event) : bool :=
  match e with
  | EvInvokeMethod _ _ _ _ => true
  | _ => is_stage e
  end.

(** Anything a running job does: no such event belongs to the handler
    that only submits the job. *)
Definition is_job_event (e : event) : bool :=
  match e with
  | EvInvokeMethod _ _ _ _ | EvOpen _ _ | EvFileWrite _ _ | EvFileClose _
  | EvWebbrowserOpen _ | EvMsleep _ | EvBarClose _ => true
  | _ => is_stage e
  end.

Definition is_progress_surface (e : event) : bool :=
  match e with EvDialogCreate _ | EvDialogShow _ => true | _ => false end.

Definition is_submission (e : event) : bool :=
  match e with EvThreadPoolStart _ => true | _ => false end.

Definition is_availability_check (e : event) : bool :=
  match e with EvGetSolvers => true | _ => false end.

Definition is_session_open (e : event) : bool :=
  match e with EvMainShow | EvAppExec => true | _ => false end.

(** The progress reports of a log: a queued [setValue] directly followed
    by a queued [setLabelText], as [set_bar_status] issues them. *)
Fixpoint progress_calls (tr : list event) : list (Z * string) :=
  match tr with
  | [] => []
  | e :: rest =>
      match e, rest with
      | EvInvokeMethod _ m1 QueuedConnection (Q_ARG_int v),
        EvInvokeMethod _ m2 QueuedConnection (Q_ARG_str l) :: _ =>
          if (m1 =? "setValue")%string && (m2 =? "setLabelText")%string
          then (v, l) :: progress_calls rest
          else progress_calls rest
      | _, _ => progress_calls rest
      end
  end.

(** ** Order of time stamps *)

Definition plausible (d : datetime) : Prop :=
  1000 <= year d <= 9999 /\ 1 <= month d <= 12 /\ 1 <= day d <= 31 /\
  0 <= hour d <= 23 /\ 0 <= minute d <= 59 /\ 0 <= second d <= 59.

Definition then_compare (c k : comparison) : comparison :=
  match c with Eq => k | _ => c end.

Definition chronological (a b : datetime) : comparison :=
  then_compare (year a ?= year b)
 (then_compare (month a ?= month b)
 (then_compare (day a ?= day b)
 (then_compare (hour a ?= hour b)
 (then_compare (minute a ?= minute b) (second a ?= second b))))).

(** ** Concrete worlds *)

(** [posixpath.join] for two components. *)
Definition ends_with_slash (a : string) : bool :=
  match String.length a with
  | O => false
  | S k => (substring k 1 a =? "/")%string
  end.

Definition posix_join (a b : string) : string :=
  if prefix "/" b then b
  else if (a =? "")%string || ends_with_slash a then a ++ b
  else a ++ "/" ++ b.

Definition the_depot : Place := mkPlace 1 "Depot".
Definition client_a : Place := mkPlace 2 "New Client (1)".
Definition client_b : Place := mkPlace 3 "New Client (2)".
Definition the_vehicle : Vehicle := mkVehicle 1 "New Vehicle (1)".

Definition small_network : Network :=
  mkNetwork the_depot [client_a; client_b] [the_vehicle].

(** The progress dialog as [on_click_solve] sets it up. *)
Definition solving_dialog : QProgressDialog :=
  setWindowModality WindowModal
    (pd_setWindowTitle "Solving Problem" (QProgressDialog_new "" "Cancel" 0 3)).

Definition a_moment : datetime := mkDatetime 2021 3 7 9 5 42.
Definition a_later_moment : datetime := mkDatetime 2021 11 2 0 0 0.

Definition example_world (b : outcome CVRPModel) (r : outcome string)
    (c g : outcome unit) : World :=
  {| build_model := fun _ => b;
     solve_model := fun _ => Ret (ResultObj 1);
     generate_report := fun _ _ => r;
     check_solvability := fun _ => c;
     get_solvers := g;
     default_network := mkNetwork the_depot [] [];
     remove_absent := AbsentFails;
     datetime_now := a_moment;
     expanduser := fun _ => "/home/user";
     os_path_join := posix_join;
     py_open := fun _ _ => None;
     file_write := fun _ _ => None;
     file_close := fun _ => None;
     webbrowser_open := fun _ => None;
     app_exec := 0 |}.

Definition calm_world : World :=
  example_world (Ret (ModelObj 1)) (Ret "<html></html>") (Ret tt) (Ret tt).

Definition world_render_fault : World :=
  example_world (Ret (ModelObj 1)) (Raise (Fault (OtherError "RuntimeError")))
                (Ret tt) (Ret tt).

Definition world_build_rejects : World :=
  example_world (Raise (CVRPException "No feasible routes")) (Ret "")
                (Ret tt) (Ret tt).

Definition world_unsolvable : World :=
  example_world (Ret (ModelObj 1)) (Ret "")
                (Raise (CVRPException "No vehicles defined")) (Ret tt).

Definition world_check_fault : World :=
  example_world (Ret (ModelObj 1)) (Ret "")
                (Raise (Fault (OtherError "AttributeError"))) (Ret tt).

Definition world_no_solvers : World :=
  example_world (Ret (ModelObj 1)) (Ret "") (Ret tt)
                (Raise (Fault (OSError "No solvers"))).

Definition the_job : ModelSolveRunnable :=
  ModelSolveRunnable_init small_network solving_dialog.

Definition the_widget : MainWidget :=
  mkMainWidget small_network (mkPushButton "Solve Problem" false).

Definition the_tab : PlacesTabWidget :=
  mkPlacesTab small_network (mkPushButton "Edit" true) (mkPushButton "Remove" true)
    (mkPlaceList (map (fun p => PlaceListItem_init p true) (all_places small_network))
                 None).

(** ** Vocabulary of the statements *)

(** The artifact path [run] computes. *)
Definition artifact_path (w : World) : string :=
  os_path_join w (expanduser w "~") (report_file_name (datetime_now w)).

(** One of the three pipeline stages of a job on network [n] raises [e]
    (the stages before it having returned). *)
Definition stage_raises (w : World) (n : Network) (e : exn) : Prop :=
  build_model w n = Raise e \/
  (exists m, build_model w n = Ret m /\ solve_model w m = Raise e) \/
  (exists m r, build_model w n = Ret m /\ solve_model w m = Ret r /\
               generate_report w m r = Raise e).

(** The network [launch_ui] works on. *)
Definition chosen_network (w : World) (network : option Network) : Network :=
  match network with None => default_network w | Some n => n end.

Definition is_set_disabled (e : event) : bool :=
  match e with EvSetDisabled _ _ => true | _ => false end.

(** ** Computations that leave the receiver alone and stay silent *)

(** [quiet P m]: [m] logs no event selected by [P] and hands the receiver
    back as it got it, whatever its outcome. *)
Definition quiet {S A} (P : event -> bool) (m : M S A) : Prop :=
  forall s, filter P (log (m s)) = [] /\ self_after (m s) = s.

(** ** More vocabulary: the job *)

Definition is_viewer (e : event) : bool :=
  match e with EvWebbrowserOpen _ => true | _ => false end.

Definition is_sleep (e : event) : bool :=
  match e with EvMsleep _ => true | _ => false end.

(** The three stages return, the last one with [report]. *)
Definition stages_return (w : World) (n : Network) (report : string) : Prop :=
  exists m r, build_model w n = Ret m /\ solve_model w m = Ret r /\
              generate_report w m r = Ret report.

(** Opening the artifact, writing [report] to it and closing it all
    succeed. *)
Definition file_saved (w : World) (report : string) : Prop :=
  py_open w (artifact_path w) "w" = None /\
  file_write w (artifact_path w) report = None /\
  file_close w (artifact_path w) = None.

(** The three progress reports of a complete job. *)
Definition full_progress : list (Z * string) :=
  [(0, "Building model..."); (1, "Searching for a solution...");
   (2, "Generating report...")].

(** The message box both handlers show for [message]. *)
Definition error_box (message : string) : event :=
  EvMessageBoxExec (mkMessageBox Critical "Error" message).

(** A world whose stages return and whose file and viewer calls answer
    as given. *)
Definition io_world (o wr cl v : option fault) : World :=
  {| build_model := fun _ => Ret (ModelObj 1);
     solve_model := fun _ => Ret (ResultObj 1);
     generate_report := fun _ _ => Ret "<html></html>";
     check_solvability := fun _ => Ret tt;
     get_solvers := Ret tt;
     default_network := mkNetwork the_depot [] [];
     remove_absent := AbsentIsNoOp;
     datetime_now := a_later_moment;
     expanduser := fun _ => "/home/user";
     os_path_join := posix_join;
     py_open := fun _ _ => o;
     file_write := fun _ _ => wr;
     file_close := fun _ => cl;
     webbrowser_open := fun _ => v;
     app_exec := 0 |}.

(** ** More vocabulary: the solve button *)

(** The check of [w] on network [n] returns or raises a
    [CVRPException]. *)
Definition check_settles (n : Network) (w : World) : Prop :=
  forall f, check_solvability w n <> Raise (Fault f).

Definition check_passes (n : Network) (w : World) : bool :=
  returned (check_solvability w n).

(** ** More vocabulary: the places tab *)

(** [ListTabWidget.__init__] for the places tab: the buttons are created
    enabled, the list is filled from the network, and
    [update_action_buttons(None)] is called. *)
Definition PlacesTabWidget_init (n : Network) : PlacesTabWidget :=
  self_after
    (update_action_buttons None
       (mkPlacesTab n (mkPushButton "Edit" false) (mkPushButton "Remove" false)
          (mkPlaceList (map (fun p => PlaceListItem_init p true) (all_places n))
                       None))).

(** What the user does in the places tab: click a row, or click Remove. *)
Inductive tab_action : Type :=
| ItemClicked (item : PlaceListItem)
| RemoveClicked.

Definition tab_step (w : World) (a : tab_action) : M PlacesTabWidget unit :=
  match a with
  | ItemClicked item => item_clicked item
  | RemoveClicked => click_remove w
  end.

Fixpoint tab_session (acts : list (World * tab_action)) (s : PlacesTabWidget)
  : PlacesTabWidget * list event :=
  match acts with
  | [] => (s, [])
  | (w, a) :: acts' =>
      let r := tab_step w a s in
      let rest := tab_session acts' (self_after r) in
      (fst rest, (log r ++ snd rest)%list)
  end.

(** While Remove is enabled, the current row is not the depot. *)
Definition guard_ok (s : PlacesTabWidget) : Prop :=
  pb_disabled (ab_remove s) = false ->
  exists item,
    current_item (items_list s) = Some item /\
    place_eqb (place item) (depot (tab_network s)) = false.

(** [e] is not a call of [remove_client] on a place identical to [d]. *)
Definition spares (d : Place) (e : event) : Prop :=
  match e with
  | EvRemoveClient p => place_eqb p d = false
  | _ => True
  end.

(** ** The vehicles tab *)

(** Modelled from the spec: [Network.remove_vehicle] is not part of the
    sources; like [remove_client] it removes the first identity-equal
    vehicle, and what happens when there is none is left to the
    implementer. *)
Fixpoint remove_first_vehicle (v : Vehicle) (l : list Vehicle)
  : option (list Vehicle) :=
  match l with
  | [] => None
  | u :: l' =>
      if vehicle_eqb u v then Some l'
      else match remove_first_vehicle v l' with
           | Some r => Some (u :: r)
           | None => None
           end
  end.

Definition remove_vehicle (pol : absent_policy) (n : Network) (v : Vehicle)
  : outcome Network :=
  match remove_first_vehicle v (vehicles n) with
  | Some l => Ret (mkNetwork (depot n) (clients n) l)
  | None =>
      match pol with
      | AbsentIsNoOp => Ret n
      | AbsentFails => Raise (Fault (OtherError "ValueError"))
      end
  end.

(** [VehicleListItem]: a list row carrying its vehicle. *)
Record VehicleListItem : Type := mkVehicleListItem {
  vehicle_item_text : string;
  vehicle : Vehicle
}.

Definition VehicleListItem_init (v : Vehicle) : VehicleListItem :=
  mkVehicleListItem (vehicle_name v) v.

(** [VehicleList]: the rows and Qt's current item. *)
Record VehicleList : Type := mkVehicleList {
  vehicle_items : list VehicleListItem;
  current_vehicle_item : option VehicleListItem
}.

(** [VehiclesTabWidget]: the shared network, two of the action buttons
    and the list. *)
Record VehiclesTabWidget : Type := mkVehiclesTab {
  vtab_network : Network;
  vtab_ab_edit : QPushButton;
  vtab_ab_remove : QPushButton;
  vtab_items_list : VehicleList
}.

Section Vehicles.

Variable w : World.

Definition vtab_ab_remove_setDisabled (b : bool) : M VehiclesTabWidget unit :=
  self <- get ;;
  emit (EvSetDisabled "ab_remove" b) ;;
  put (mkVehiclesTab (vtab_network self) (vtab_ab_edit self)
                     (setDisabled b (vtab_ab_remove self)) (vtab_items_list self)).

Definition vtab_ab_edit_setDisabled (b : bool) : M VehiclesTabWidget unit :=
  self <- get ;;
  emit (EvSetDisabled "ab_edit" b) ;;
  put (mkVehiclesTab (vtab_network self) (setDisabled b (vtab_ab_edit self))
                     (vtab_ab_remove self) (vtab_items_list self)).

Definition is_selected_vehicle_valid (item : option VehicleListItem) : bool :=
  match item with Some _ => true | None => false end.

(** [ListTabWidget.update_action_buttons], which the vehicles tab
    inherits unchanged. *)
Definition vtab_update_action_buttons (item : option VehicleListItem)
  : M VehiclesTabWidget unit :=
  let is_item_invalid := Bool.eqb (is_selected_vehicle_valid item) false in
  vtab_ab_remove_setDisabled is_item_invalid ;;
  vtab_ab_edit_setDisabled is_item_invalid.

(** [VehicleList.update_vehicles] *)
Definition update_vehicles : M VehiclesTabWidget unit :=
  self <- get ;;
  put (mkVehiclesTab (vtab_network self) (vtab_ab_edit self) (vtab_ab_remove self)
         (mkVehicleList (map VehicleListItem_init (vehicles (vtab_network self)))
                        None)).

Definition vtab_on_editor_close : M VehiclesTabWidget unit :=
  update_vehicles ;;
  vtab_update_action_buttons None.

(** [VehiclesTabWidget.on_item_remove]; the call of [remove_vehicle] shows
    in the network it leaves. *)
Definition vtab_on_item_remove (item : VehicleListItem) : M VehiclesTabWidget unit :=
  self <- get ;;
  n' <- of_outcome (remove_vehicle (remove_absent w) (vtab_network self)
                                   (vehicle item)) ;;
  put (mkVehiclesTab n' (vtab_ab_edit self) (vtab_ab_remove self)
                     (vtab_items_list self)) ;;
  vtab_on_editor_close.

(** [ListTabWidget.__remove_item] in the vehicles tab. *)
Definition vtab_remove_item : M VehiclesTabWidget unit :=
  self <- get ;;
  match current_vehicle_item (vtab_items_list self) with
  | Some item => vtab_on_item_remove item
  | None => ret tt
  end.

(** [itemClicked]: the clicked row becomes the current one and the
    buttons are updated. *)
Definition vtab_item_clicked (item : VehicleListItem) : M VehiclesTabWidget unit :=
  self <- get ;;
  put (mkVehiclesTab (vtab_network self) (vtab_ab_edit self) (vtab_ab_remove self)
         (mkVehicleList (vehicle_items (vtab_items_list self)) (Some item))) ;;
  vtab_update_action_buttons (Some item).

(** Qt delivers the Remove button's [clicked] only while it is enabled. *)
Definition vtab_click_remove : M VehiclesTabWidget unit :=
  self <- get ;;
  if pb_disabled (vtab_ab_remove self) then ret tt else vtab_remove_item.

End Vehicles.

Definition the_vehicles_tab : VehiclesTabWidget :=
  mkVehiclesTab small_network (mkPushButton "Edit" true) (mkPushButton "Remove" true)
    (mkVehicleList (map VehicleListItem_init (vehicles small_network)) None).

(** * Properties *)

(** ** The monad *)

Section Quiet.

Context {S : Type} (P : event -> bool).

Lemma quiet_ret {A} (a : A) : quiet P (ret (S := S) a).
Proof. intro s; split; reflexivity. Qed.

Lemma quiet_get : quiet P (get (S := S)).
Proof. intro s; split; reflexivity. Qed.

Lemma quiet_of_outcome {A} (o : outcome A) : quiet P (of_outcome (S := S) o).
Proof. intro s; split; reflexivity. Qed.

Lemma quiet_emit (e : event) : P e = false -> quiet P (emit (S := S) e).
Proof. intros He s; split; [cbn; now rewrite He | reflexivity]. Qed.

Lemma quiet_bind {A B} (m : M S A) (k : A -> M S B) :
  quiet P m -> (forall a, quiet P (k a)) -> quiet P (bind m k).
Proof.
  intros Hm Hk s. unfold bind.
  destruct (Hm s) as [Hl Hs].
  destruct (out (m s)) as [a | e]; cbn [log self_after].
  - destruct (Hk a (self_after (m s))) as [Hl' Hs'].
    rewrite filter_app, Hl, Hl', Hs', Hs. split; reflexivity.
  - split; assumption.
Qed.

Lemma quiet_call {A} (e : event) (o : outcome A) :
  P e = false -> quiet P (call (S := S) e o).
Proof.
  intro He. unfold call.
  apply quiet_bind; [now apply quiet_emit | intros _; apply quiet_of_outcome].
Qed.

Lemma quiet_try_except_CVRPException {A} (body : M S A) (handler : string -> M S A) :
  quiet P body -> (forall message, quiet P (handler message)) ->
  quiet P (try_except_CVRPException body handler).
Proof.
  intros Hb Hh s. unfold try_except_CVRPException.
  destruct (Hb s) as [Hl Hs].
  destruct (out (body s)) as [a | [message | f]]; try (split; assumption).
  cbn [log self_after].
  destruct (Hh message (self_after (body s))) as [Hl' Hs'].
  rewrite filter_app, Hl, Hl', Hs', Hs. split; reflexivity.
Qed.

Lemma quiet_try_finally {A} (body : M S A) (fin : M S unit) :
  quiet P body -> quiet P fin -> quiet P (try_finally body fin).
Proof.
  intros Hb Hf s. unfold try_finally. cbn [log self_after].
  destruct (Hb s) as [Hl Hs].
  destruct (Hf (self_after (body s))) as [Hl' Hs'].
  rewrite filter_app, Hl, Hl', Hs', Hs. split; reflexivity.
Qed.

End Quiet.

Create HintDb quiet.
#[local] Hint Resolve quiet_ret quiet_get quiet_of_outcome quiet_emit quiet_call
  quiet_bind quiet_try_except_CVRPException quiet_try_finally : quiet.

(** The finaliser of [try_finally] is appended to whatever the body
    logged. *)
Lemma try_finally_log {S A} (body : M S A) (fin : M S unit) (s : S) :
  log (try_finally body fin s) = (log (body s) ++ log (fin (self_after (body s))))%list.
Proof. reflexivity. Qed.

(** ** ModelSolveRunnable.run *)

Lemma quiet_set_bar_status (P : event -> bool) (value : Z) (label : string) :
  (forall t m c a, P (EvInvokeMethod t m c a) = false) ->
  quiet P (set_bar_status value label).
Proof.
  intro HP. unfold set_bar_status, invokeMethod. auto 10 with quiet.
Qed.

Lemma quiet_with_open (P : event -> bool) (w : World) {A} (path mode : string)
    (body : string -> M ModelSolveRunnable A) :
  (forall p m, P (EvOpen p m) = false) -> (forall p, P (EvFileClose p) = false) ->
  (forall f, quiet P (body f)) ->
  quiet P (with_open w path mode body).
Proof.
  intros Ho Hc Hb. unfold with_open. auto 10 with quiet.
Qed.

(** Everything between [try:] and [finally:] leaves the progress dialog
    open. *)
Lemma guarded_part_never_closes (w : World) :
  quiet is_cleanup
    (try_except_CVRPException (run_body w) (fun message => show_error message)).
Proof.
  apply quiet_try_except_CVRPException.
  - unfold run_body, write. cbv zeta.
    repeat first
      [ apply quiet_with_open; [reflexivity | reflexivity | intro]
      | apply quiet_set_bar_status; reflexivity
      | apply quiet_bind; [| intro]
      | apply quiet_get
      | apply quiet_call; reflexivity
      | apply quiet_emit; reflexivity ].
  - intro message. unfold show_error. apply quiet_emit; reflexivity.
Qed.

(** The log of [run]: a part with no closing of the dialog, then the
    closing. *)
Lemma run_log_shape (w : World) (r : ModelSolveRunnable) :
  exists before,
    log (run w r) = (before ++ [EvBarClose (bar r)])%list /\
    filter is_cleanup before = [].
Proof.
  unfold run. rewrite try_finally_log.
  destruct (guarded_part_never_closes w r) as [Hl Hs].
  rewrite Hs. cbn [bind get emit out self_after log app].
  eexists; split; [reflexivity | exact Hl].
Qed.

Lemma run_cleanup_calls (w : World) (r : ModelSolveRunnable) :
  filter is_cleanup (log (run w r)) = [EvBarClose (bar r)].
Proof.
  destruct (run_log_shape w r) as (before & -> & Hb).
  rewrite filter_app, Hb. reflexivity.
Qed.

(** C1. Whatever the collaborators, the file system and the viewer do
    (return, raise a [CVRPException], raise anything else), [run] closes
    the progress dialog exactly once, as its last action. *)
Theorem run_closes_bar_exactly_once (w : World) (r : ModelSolveRunnable) :
  filter is_cleanup (log (run w r)) = [EvBarClose (bar r)] /\
  exists before,
    log (run w r) = (before ++ [EvBarClose (bar r)])%list /\
    filter is_cleanup before = [].
Proof.
  split; [apply run_cleanup_calls | apply run_log_shape].
Qed.

(** Unfolding the combinators down to the collaborators' answers. *)
Ltac step_py :=
  cbv beta iota zeta delta
    [run run_body set_bar_status invokeMethod with_open write show_error
     on_click_solve solve_setDisabled click_solve launch_ui
     try_finally try_except_CVRPException try_except_EnvironmentError
     bind call emit get put ret raise of_outcome lift_fault
     out self_after log app
     ModelSolveRunnable_init network bar progress mw_network solve
     setDisabled pb_disabled pb_text].

Ltac settle_with H := step_py; rewrite H; step_py.

(** C4. When building the model fails with a [CVRPException], the log is
    the first progress report, the build call, one critical message box
    carrying the exception's message and the closing of the dialog: no
    later stage runs and no file is opened. *)
Theorem run_build_domain_failure (w : World) (n : Network) (b : QProgressDialog)
    (message : string) :
  build_model w n = Raise (CVRPException message) ->
  let r := run w (ModelSolveRunnable_init n b) in
  log r =
    [EvInvokeMethod b "setValue" QueuedConnection (Q_ARG_int 0);
     EvInvokeMethod b "setLabelText" QueuedConnection (Q_ARG_str "Building model...");
     EvBuildModel n;
     EvMessageBoxExec (mkMessageBox Critical "Error" message);
     EvBarClose b] /\
  progress_calls (log r) = [(0, "Building model...")] /\
  filter is_error_surface (log r) =
    [EvMessageBoxExec (mkMessageBox Critical "Error" message)] /\
  filter is_file_event (log r) = [] /\
  filter is_cleanup (log r) = [EvBarClose b] /\
  filter is_stage (log r) = [EvBuildModel n] /\
  out r = Ret tt.
Proof.
  intros Hb r.
  assert (Hlog : log r =
    [EvInvokeMethod b "setValue" QueuedConnection (Q_ARG_int 0);
     EvInvokeMethod b "setLabelText" QueuedConnection (Q_ARG_str "Building model...");
     EvBuildModel n;
     EvMessageBoxExec (mkMessageBox Critical "Error" message);
     EvBarClose b]).
  { subst r. settle_with Hb. reflexivity. }
  split; [exact Hlog |].
  rewrite Hlog.
  repeat split.
  subst r. settle_with Hb. reflexivity.
Qed.

Lemma run_build_domain_failure_witness :
  build_model world_build_rejects small_network
    = Raise (CVRPException "No feasible routes") /\
  filter is_error_surface (log (run world_build_rejects the_job)) =
    [EvMessageBoxExec (mkMessageBox Critical "Error" "No feasible routes")].
Proof.
  split.
  - reflexivity.
  - exact (proj1 (proj2 (proj2
      (run_build_domain_failure world_build_rejects small_network solving_dialog
         "No feasible routes" eq_refl)))).
Defined.

Ltac split_io w :=
  repeat match goal with
  | |- context [py_open w ?p ?m] => destruct (py_open w p m); step_py
  | |- context [file_write w ?p ?c] => destruct (file_write w p c); step_py
  | |- context [file_close w ?p] => destruct (file_close w p); step_py
  | |- context [webbrowser_open w ?p] => destruct (webbrowser_open w p); step_py
  end.

(** C2. When the three stages succeed, the progress reports are exactly
    (0, building), (1, searching), (2, generating), each one logged just
    before the call of its stage; [open] is called exactly once, on the
    artifact path in mode "w"; the dialog is closed exactly once and no
    message box is shown.  This holds whatever the file system and the
    viewer answer. *)
Theorem run_success_trace (w : World) (n : Network) (b : QProgressDialog)
    (model : CVRPModel) (result : SolveResult) (report : string) :
  build_model w n = Ret model ->
  solve_model w model = Ret result ->
  generate_report w model result = Ret report ->
  let tr := log (run w (ModelSolveRunnable_init n b)) in
  progress_calls tr =
    [(0, "Building model..."); (1, "Searching for a solution...");
     (2, "Generating report...")] /\
  filter is_progress_or_stage tr =
    [EvInvokeMethod b "setValue" QueuedConnection (Q_ARG_int 0);
     EvInvokeMethod b "setLabelText" QueuedConnection (Q_ARG_str "Building model...");
     EvBuildModel n;
     EvInvokeMethod b "setValue" QueuedConnection (Q_ARG_int 1);
     EvInvokeMethod b "setLabelText" QueuedConnection
       (Q_ARG_str "Searching for a solution...");
     EvSolveModel model;
     EvInvokeMethod b "setValue" QueuedConnection (Q_ARG_int 2);
     EvInvokeMethod b "setLabelText" QueuedConnection
       (Q_ARG_str "Generating report...");
     EvGenerateReport model result] /\
  filter is_file_create tr = [EvOpen (artifact_path w) "w"] /\
  filter is_cleanup tr = [EvBarClose b] /\
  filter is_error_surface tr = [].
Proof.
  intros Hb Hs Hr tr. subst tr. unfold artifact_path.
  settle_with Hb. rewrite Hs. step_py. rewrite Hr. step_py.
  split_io w; repeat split.
Qed.

Lemma run_success_trace_witness :
  build_model calm_world small_network = Ret (ModelObj 1) /\
  solve_model calm_world (ModelObj 1) = Ret (ResultObj 1) /\
  generate_report calm_world (ModelObj 1) (ResultObj 1) = Ret "<html></html>" /\
  progress_calls (log (run calm_world the_job)) =
    [(0, "Building model..."); (1, "Searching for a solution...");
     (2, "Generating report...")].
Proof.
  repeat (split; [reflexivity |]).
  exact (proj1 (run_success_trace calm_world small_network solving_dialog
                  (ModelObj 1) (ResultObj 1) "<html></html>"
                  eq_refl eq_refl eq_refl)).
Defined.

(** C3, as the code has it. When a pipeline stage raises an exception that
    is not a [CVRPException], [run] closes the progress dialog exactly
    once and then lets that same exception leave [run]: the handler only
    catches [CVRPException]. *)
Theorem run_stage_fault_propagates (w : World) (r : ModelSolveRunnable) (f : fault) :
  stage_raises w (network r) (Fault f) ->
  filter is_cleanup (log (run w r)) = [EvBarClose (bar r)] /\
  out (run w r) = Raise (Fault f).
Proof.
  intros H. split; [apply run_cleanup_calls |].
  destruct r as [n b p]. unfold stage_raises in H. cbn [network] in H.
  destruct H as [Hb | [(m & Hb & Hs) | (m & res & Hb & Hs & Hr)]].
  - settle_with Hb. reflexivity.
  - settle_with Hb. rewrite Hs. reflexivity.
  - settle_with Hb. rewrite Hs. step_py. rewrite Hr. reflexivity.
Qed.

Lemma run_stage_fault_propagates_witness :
  stage_raises world_render_fault (network the_job)
    (Fault (OtherError "RuntimeError")) /\
  out (run world_render_fault the_job) = Raise (Fault (OtherError "RuntimeError")).
Proof.
  assert (H : stage_raises world_render_fault (network the_job)
                (Fault (OtherError "RuntimeError"))).
  { right; right. exists (ModelObj 1), (ResultObj 1). repeat split. }
  split; [exact H |].
  exact (proj2 (run_stage_fault_propagates world_render_fault the_job
                  (OtherError "RuntimeError") H)).
Defined.

(** C3, as stated, fails: with a report generator that raises a
    [RuntimeError], the dialog is closed once but [run] does not return,
    the [RuntimeError] escapes it. *)
Lemma run_render_fault_escapes :
  generate_report world_render_fault (ModelObj 1) (ResultObj 1)
    = Raise (Fault (OtherError "RuntimeError")) /\
  out (run world_render_fault the_job) = Raise (Fault (OtherError "RuntimeError")) /\
  ~ (filter is_cleanup (log (run world_render_fault the_job)) = [EvBarClose solving_dialog] /\
     returned (out (run world_render_fault the_job)) = true).
Proof.
  split; [reflexivity | split; [reflexivity |]].
  intros [_ H]. vm_compute in H. discriminate H.
Qed.

(** ** MainWidget.on_click_solve *)

(** C6. When [check_solvability] raises a [CVRPException], the handler
    logs the disabling of the button, the check, one critical message box
    with the exception's message, and the enabling of the button: no
    progress dialog is created or shown and nothing is handed to the
    thread pool. *)
Theorem on_click_solve_validation_failure (w : World) (s : MainWidget)
    (message : string) :
  check_solvability w (mw_network s) = Raise (CVRPException message) ->
  let r := on_click_solve w s in
  log r =
    [EvSetDisabled "solve" true;
     EvCheckSolvability (mw_network s);
     EvMessageBoxExec (mkMessageBox Critical "Error" message);
     EvSetDisabled "solve" false] /\
  filter is_progress_surface (log r) = [] /\
  filter is_submission (log r) = [] /\
  filter is_job_event (log r) = [] /\
  filter is_error_surface (log r) =
    [EvMessageBoxExec (mkMessageBox Critical "Error" message)].
Proof.
  intros Hc r. subst r. destruct s as [n b]. cbn [mw_network] in *.
  settle_with Hc. repeat split.
Qed.

Lemma on_click_solve_validation_failure_witness :
  check_solvability world_unsolvable (mw_network the_widget)
    = Raise (CVRPException "No vehicles defined") /\
  filter is_submission (log (on_click_solve world_unsolvable the_widget)) = [].
Proof.
  split.
  - reflexivity.
  - exact (proj1 (proj2 (proj2
      (on_click_solve_validation_failure world_unsolvable the_widget
         "No vehicles defined" eq_refl)))).
Defined.

(** C9. Unless the check raises something other than a [CVRPException],
    the handler first disables the solve button and last enables it again,
    touching it nowhere in between, and returns with the button enabled.
    When the check passes, the log between the two is the check, the
    dialog and the submission to the thread pool; no step of the job is
    part of the handler's log. *)
Theorem on_click_solve_reenables (w : World) (s : MainWidget) :
  (forall f, check_solvability w (mw_network s) <> Raise (Fault f)) ->
  let r := on_click_solve w s in
  exists middle,
    log r = (EvSetDisabled "solve" true :: middle ++ [EvSetDisabled "solve" false])%list /\
    filter is_set_disabled middle = [] /\
    filter is_job_event (log r) = [] /\
    (check_solvability w (mw_network s) = Ret tt ->
     middle = [EvCheckSolvability (mw_network s);
               EvDialogCreate (QProgressDialog_new "" "Cancel" 0 3);
               EvDialogShow solving_dialog;
               EvThreadPoolStart
                 (ModelSolveRunnable_init (mw_network s) solving_dialog)]) /\
    out r = Ret tt /\
    pb_disabled (solve (self_after r)) = false.
Proof.
  intros Hc r. subst r. destruct s as [n b]. cbn [mw_network] in *.
  destruct (check_solvability w n) as [[] | [message | f]] eqn:E.
  - exists [EvCheckSolvability n;
            EvDialogCreate (QProgressDialog_new "" "Cancel" 0 3);
            EvDialogShow solving_dialog;
            EvThreadPoolStart (ModelSolveRunnable_init n solving_dialog)].
    settle_with E. repeat split.
  - exists [EvCheckSolvability n;
            EvMessageBoxExec (mkMessageBox Critical "Error" message)].
    settle_with E. repeat split. intros H; discriminate H.
  - exfalso. exact (Hc f eq_refl).
Qed.

Lemma on_click_solve_reenables_witness :
  (forall f, check_solvability calm_world (mw_network the_widget) <> Raise (Fault f)) /\
  pb_disabled (solve (self_after (on_click_solve calm_world the_widget))) = false.
Proof.
  assert (H : forall f,
             check_solvability calm_world (mw_network the_widget) <> Raise (Fault f)).
  { intros f E. discriminate E. }
  split; [exact H |].
  destruct (on_click_solve_reenables calm_world the_widget H)
    as (middle & _ & _ & _ & _ & _ & Hd).
  exact Hd.
Defined.

(** Clicks on a disabled solve button change nothing and log nothing. *)
Lemma clicks_while_disabled (ws : list World) (s : MainWidget) :
  pb_disabled (solve s) = true -> clicks ws s = (s, []).
Proof.
  intro Hd. induction ws as [| w ws IH]; [reflexivity |].
  cbn [clicks]. unfold click_solve, bind, get. cbn [out self_after log].
  rewrite Hd. cbn [ret out self_after log app]. now rewrite IH.
Qed.

(** C10. When the check raises an exception that is not a
    [CVRPException], that exception leaves the handler, the enabling of
    the button is not reached, and the button stays disabled: every later
    click is ignored. *)
Theorem on_click_solve_fault_leaves_disabled (w : World) (s : MainWidget) (f : fault) :
  check_solvability w (mw_network s) = Raise (Fault f) ->
  let r := on_click_solve w s in
  out r = Raise (Fault f) /\
  log r = [EvSetDisabled "solve" true; EvCheckSolvability (mw_network s)] /\
  pb_disabled (solve (self_after r)) = true /\
  forall later : list World, clicks later (self_after r) = (self_after r, []).
Proof.
  intros Hc r.
  assert (Hd : pb_disabled (solve (self_after r)) = true).
  { subst r. destruct s as [n b]. cbn [mw_network] in *. settle_with Hc. reflexivity. }
  repeat split.
  - subst r. destruct s as [n b]. cbn [mw_network] in *. settle_with Hc. reflexivity.
  - subst r. destruct s as [n b]. cbn [mw_network] in *. settle_with Hc. reflexivity.
  - exact Hd.
  - intro later. now apply clicks_while_disabled.
Qed.

Lemma on_click_solve_fault_leaves_disabled_witness :
  check_solvability world_check_fault (mw_network the_widget)
    = Raise (Fault (OtherError "AttributeError")) /\
  out (on_click_solve world_check_fault the_widget)
    = Raise (Fault (OtherError "AttributeError")) /\
  clicks [calm_world; calm_world]
         (self_after (on_click_solve world_check_fault the_widget))
    = (self_after (on_click_solve world_check_fault the_widget), []).
Proof.
  split; [reflexivity |].
  destruct (on_click_solve_fault_leaves_disabled world_check_fault the_widget
              (OtherError "AttributeError") eq_refl) as (Ho & _ & _ & Hl).
  split; [exact Ho | exact (Hl [calm_world; calm_world])].
Defined.

(** ** launch_ui *)

(** C8. [launch_ui] asks for the solvers exactly once, before the main
    window is shown and the event loop entered.  When that call raises an
    [EnvironmentError], one critical box reading "No available solvers" is
    shown and [launch_ui] returns: the window is not shown and the loop is
    not entered.  A [CVRPException] is not taken for that condition: the
    handler ignores it and shows nothing. *)
Theorem launch_ui_start_up_check (w : World) (network : option Network) :
  let r := launch_ui w network tt in
  filter is_availability_check (log r) = [EvGetSolvers] /\
  (exists before after,
     log r = (before ++ EvGetSolvers :: after)%list /\
     filter is_session_open before = []) /\
  (forall what, get_solvers w = Raise (Fault (OSError what)) ->
     log r = [EvQApplication;
              EvMainWindowCreate (chosen_network w network);
              EvGetSolvers;
              EvMessageBoxExec (mkMessageBox Critical "Error" "No available solvers")] /\
     filter is_session_open (log r) = [] /\
     out r = Ret tt) /\
  (forall message, get_solvers w = Raise (CVRPException message) ->
     filter is_error_surface (log r) = [] /\
     out r = Raise (CVRPException message)).
Proof.
  intro r. subst r. unfold chosen_network.
  split; [| split; [| split]].
  - step_py. destruct (get_solvers w) as [[] | [message | [what | code | cls]]];
      reflexivity.
  - exists [EvQApplication; EvMainWindowCreate (chosen_network w network)].
    unfold chosen_network. step_py.
    destruct (get_solvers w) as [[] | [message | [what | code | cls]]];
      eexists; split; reflexivity.
  - intros what E. settle_with E. repeat split.
  - intros message E. settle_with E. repeat split.
Qed.

Lemma launch_ui_start_up_check_witness :
  get_solvers world_no_solvers = Raise (Fault (OSError "No solvers")) /\
  filter is_session_open (log (launch_ui world_no_solvers None tt)) = [] /\
  out (launch_ui world_no_solvers None tt) = Ret tt.
Proof.
  split; [reflexivity |].
  destruct (launch_ui_start_up_check world_no_solvers None)
    as (_ & _ & H & _).
  exact (proj2 (H "No solvers" eq_refl)).
Defined.

(** ** PlacesTabWidget and the depot *)

Ltac step_tab :=
  cbv beta iota zeta delta
    [update_action_buttons super_update_action_buttons ab_remove_setDisabled
     ab_edit_setDisabled is_selected_item_valid update_places on_editor_close
     on_item_remove remove_item item_clicked click_remove
     bind call emit get put ret of_outcome out self_after log app
     tab_network ab_edit ab_remove items_list items current_item
     setDisabled pb_disabled pb_text Bool.eqb].

Lemma remove_first_absent (p : Place) (l : list Place) :
  (forall c, In c l -> place_eqb c p = false) -> remove_first p l = None.
Proof.
  induction l as [| q l IH]; intro H; [reflexivity |].
  cbn [remove_first]. rewrite (H q (or_introl eq_refl)).
  rewrite IH; [reflexivity |]. intros c Hc. apply H. now right.
Qed.

(** With no row selected the Remove button is disabled as well (the
    inherited behaviour). *)
Lemma update_action_buttons_no_selection (s : PlacesTabWidget) :
  pb_disabled (ab_remove (self_after (update_action_buttons None s))) = true.
Proof. destruct s. reflexivity. Qed.

(** C5. In a network whose depot is not among its clients, removing the
    depot through [remove_client] changes nothing or fails, according to
    the policy for absent places; and [remove_client] never touches the
    depot field.  The guard itself is in the tab: with a row selected,
    [update_action_buttons] leaves Remove disabled exactly when the row's
    place is the depot, so a click on Remove after selecting the depot
    does nothing, while [on_item_remove] starts by calling
    [remove_client] on whatever place it is given and stores its result. *)
Theorem depot_removal_guard :
  (forall pol n, depot_distinct n ->
     remove_client pol n (depot n) =
       match pol with
       | AbsentIsNoOp => Ret n
       | AbsentFails => Raise (Fault (OtherError "ValueError"))
       end) /\
  (forall pol n p n', remove_client pol n p = Ret n' -> depot n' = depot n) /\
  (forall s item,
     pb_disabled (ab_remove (self_after (update_action_buttons (Some item) s)))
       = place_eqb (place item) (depot (tab_network s))) /\
  (forall w s item,
     place_eqb (place item) (depot (tab_network s)) = true ->
     let s1 := self_after (item_clicked item s) in
     click_remove w s1 = mkRes (Ret tt) s1 []) /\
  (forall w s item,
     exists rest,
       log (on_item_remove w item s) = EvRemoveClient (place item) :: rest /\
       forall n',
         remove_client (remove_absent w) (tab_network s) (place item) = Ret n' ->
         tab_network (self_after (on_item_remove w item s)) = n').
Proof.
  split; [| split; [| split; [| split]]].
  - intros pol n Hn. unfold remove_client.
    now rewrite (remove_first_absent (depot n) (clients n) Hn).
  - intros pol n p n'. unfold remove_client.
    destruct (remove_first p (clients n)); [| destruct pol]; intro H;
      try discriminate H; injection H as <-; reflexivity.
  - intros [n e rm l] item. reflexivity.
  - intros w [n e rm l] item Hd s1. subst s1. step_tab.
    cbn [tab_network] in Hd. rewrite Hd. reflexivity.
  - intros w [n e rm l] item. step_tab.
    destruct (remove_client (remove_absent w) n (place item)) as [n1 | ex] eqn:E.
    + eexists. split; [reflexivity |]. intros n' H. now injection H.
    + eexists. split; [reflexivity |]. intros n' H. discriminate H.
Qed.

Lemma depot_removal_guard_witness :
  depot_distinct small_network /\
  remove_client AbsentFails small_network (depot small_network)
    = Raise (Fault (OtherError "ValueError")) /\
  remove_client AbsentIsNoOp small_network (depot small_network)
    = Ret small_network /\
  click_remove calm_world
    (self_after (item_clicked (PlaceListItem_init the_depot true) the_tab))
    = mkRes (Ret tt)
        (self_after (item_clicked (PlaceListItem_init the_depot true) the_tab)) [].
Proof.
  assert (H : depot_distinct small_network).
  { intros c [<- | [<- | []]]; reflexivity. }
  destruct depot_removal_guard as (Hr & _ & _ & Hc & _).
  split; [exact H |].
  split; [exact (Hr AbsentFails small_network H) |].
  split; [exact (Hr AbsentIsNoOp small_network H) |].
  exact (Hc calm_world the_tab (PlaceListItem_init the_depot true) eq_refl).
Defined.

(** ** The artifact: path, mode, content and name *)

Lemma append_assoc (a b c : string) : (a ++ b) ++ c = a ++ b ++ c.
Proof. induction a as [| x a IH]; cbn; [reflexivity | now rewrite IH]. Qed.

Lemma length_append (a b : string) :
  String.length (a ++ b) = (String.length a + String.length b)%nat.
Proof. induction a as [| x a IH]; cbn; [reflexivity | now rewrite IH]. Qed.

Lemma length_zero_pad (k : nat) (n : Z) : String.length (zero_pad k n) = k.
Proof.
  revert n. induction k as [| k IH]; intro n; [reflexivity |].
  cbn [zero_pad]. rewrite length_append, IH. cbn. lia.
Qed.

Lemma then_compare_Eq_r (c : comparison) : then_compare c Eq = c.
Proof. now destruct c. Qed.

Lemma ascii_compare_refl (c : ascii) : Ascii.compare c c = Eq.
Proof. apply N.compare_refl. Qed.

Lemma compare_refl (s : string) : String.compare s s = Eq.
Proof.
  induction s as [| c s IH]; [reflexivity |].
  cbn [String.compare]. now rewrite ascii_compare_refl.
Qed.

Lemma compare_same_head (c : ascii) (s t : string) :
  String.compare (String c s) (String c t) = String.compare s t.
Proof. cbn [String.compare]. now rewrite ascii_compare_refl. Qed.

(** Comparing two strings that start with blocks of the same length:
    the blocks decide, unless they are equal. *)
Lemma compare_blocks (a b s t : string) :
  String.length a = String.length b ->
  String.compare (a ++ s) (b ++ t)
    = then_compare (String.compare a b) (String.compare s t).
Proof.
  revert b. induction a as [| x a IH]; intros [| y b] H; try discriminate H.
  - reflexivity.
  - cbn [append String.compare].
    destruct (Ascii.compare x y); [| reflexivity | reflexivity].
    apply IH. now injection H.
Qed.

Lemma compare_digit_char (a b : Z) :
  0 <= a < 10 -> 0 <= b < 10 ->
  Ascii.compare (digit_char a) (digit_char b) = (a ?= b).
Proof.
  intros Ha Hb. unfold Ascii.compare, digit_char, ascii_of_nat.
  rewrite !N_ascii_embedding by lia.
  destruct (Z.compare_spec a b) as [E | L | G].
  - subst b. apply N.compare_refl.
  - apply N.compare_lt_iff. lia.
  - apply N.compare_gt_iff. lia.
Qed.

Lemma compare_by_digits (a b : Z) :
  0 <= a -> 0 <= b ->
  then_compare (a / 10 ?= b / 10) (a mod 10 ?= b mod 10) = (a ?= b).
Proof.
  intros Ha Hb.
  pose proof (Z.div_mod a 10 ltac:(lia)) as Da.
  pose proof (Z.div_mod b 10 ltac:(lia)) as Db.
  pose proof (Z.mod_pos_bound a 10 ltac:(lia)) as Ma.
  pose proof (Z.mod_pos_bound b 10 ltac:(lia)) as Mb.
  symmetry.
  destruct (Z.compare_spec (a / 10) (b / 10)) as [E | L | G]; cbn [then_compare].
  - destruct (Z.compare_spec (a mod 10) (b mod 10)) as [E' | L' | G'].
    + apply Z.compare_eq_iff. lia.
    + apply Z.compare_lt_iff. lia.
    + apply Z.compare_gt_iff. lia.
  - apply Z.compare_lt_iff. lia.
  - apply Z.compare_gt_iff. lia.
Qed.

(** Zero-filled numbers of one width compare as strings the way they
    compare as numbers. *)
Lemma compare_zero_pad (k : nat) (a b : Z) :
  0 <= a < 10 ^ Z.of_nat k -> 0 <= b < 10 ^ Z.of_nat k ->
  String.compare (zero_pad k a) (zero_pad k b) = (a ?= b).
Proof.
  revert a b. induction k as [| k IH]; intros a b Ha Hb.
  - cbn in Ha, Hb. assert (a = 0) by lia. assert (b = 0) by lia. now subst.
  - rewrite Nat2Z.inj_succ, Z.pow_succ_r in Ha, Hb by lia.
    cbn [zero_pad].
    rewrite compare_blocks by now rewrite !length_zero_pad.
    rewrite IH by (split; [apply Z.div_pos; lia | apply Z.div_lt_upper_bound; lia]).
    cbn [String.compare].
    rewrite compare_digit_char by (apply Z.mod_pos_bound; lia).
    rewrite <- (compare_by_digits a b) by lia.
    now destruct (a mod 10 ?= b mod 10).
Qed.

(** From year 1000 on, the unpadded year has its four digits. *)
Lemma decimal_four_digits (y : Z) : 1000 <= y <= 9999 -> decimal y = zero_pad 4 y.
Proof.
  intro Hy.
  assert (H : forallb (fun k => (decimal (Z.of_nat k) =? zero_pad 4 (Z.of_nat k))%string)
                      (seq 1000 (Z.to_nat 9000)) = true) by (vm_compute; reflexivity).
  rewrite forallb_forall in H.
  specialize (H (Z.to_nat y)). rewrite Z2Nat.id in H by lia.
  apply String.eqb_eq, H, in_seq. lia.
Qed.

(** The file name, field by field. *)
Lemma report_file_name_fields (d : datetime) :
  report_file_name d =
    "report-" ++ decimal (year d) ++ "-" ++ zero_pad 2 (month d) ++ "-" ++
    zero_pad 2 (day d) ++ "_" ++ zero_pad 2 (hour d) ++ "." ++
    zero_pad 2 (minute d) ++ "." ++ zero_pad 2 (second d) ++ ".html".
Proof.
  unfold report_file_name.
  change (strftime "%Y-%m-%d_%H.%M.%S" d) with
    (decimal (year d) ++ "-" ++ zero_pad 2 (month d) ++ "-" ++
     zero_pad 2 (day d) ++ "_" ++ zero_pad 2 (hour d) ++ "." ++
     zero_pad 2 (minute d) ++ "." ++ (zero_pad 2 (second d) ++ "")).
  repeat (rewrite ?append_assoc; cbn [append]).
  reflexivity.
Qed.

Lemma report_file_name_length (d : datetime) :
  plausible d -> String.length (report_file_name d) = 31%nat.
Proof.
  intros (Hy & _). rewrite report_file_name_fields, decimal_four_digits by exact Hy.
  repeat (rewrite ?length_append, ?length_zero_pad; cbn [String.length append]).
  reflexivity.
Qed.

Lemma report_file_name_order (a b : datetime) :
  plausible a -> plausible b ->
  String.compare (report_file_name a) (report_file_name b) = chronological a b.
Proof.
  intros (Hya & Hma & Hda & Hha & Hia & Hsa) (Hyb & Hmb & Hdb & Hhb & Hib & Hsb).
  rewrite !report_file_name_fields, !decimal_four_digits by assumption.
  unfold chronological.
  cbn [append]. rewrite !compare_same_head.
  repeat (rewrite compare_blocks by (now rewrite !length_zero_pad);
          rewrite compare_zero_pad by (cbn; lia);
          f_equal;
          cbn [append]; rewrite ?compare_same_head).
  rewrite compare_refl. apply then_compare_Eq_r.
Qed.

Example report_file_name_a_moment :
  report_file_name a_moment = "report-2021-03-07_09.05.42.html".
Proof. reflexivity. Qed.

(** C7. In a job whose three stages succeed and whose [open] succeeds, the
    file calls are: [open] on the home directory joined with the report
    name, in mode "w"; one [write] of the generated report to that file;
    its closing.  The name is "report-", the time stamp of [datetime.now]
    as year-month-day_hour.minute.second, ".html"; for plausible dates it
    has 31 characters, and names compare as strings the way their time
    stamps compare in time. *)
Theorem run_writes_report (w : World) (r : ModelSolveRunnable)
    (model : CVRPModel) (result : SolveResult) (report : string) :
  build_model w (network r) = Ret model ->
  solve_model w model = Ret result ->
  generate_report w model result = Ret report ->
  py_open w (artifact_path w) "w" = None ->
  filter is_file_event (log (run w r)) =
    [EvOpen (artifact_path w) "w";
     EvFileWrite (artifact_path w) report;
     EvFileClose (artifact_path w)] /\
  artifact_path w =
    os_path_join w (expanduser w "~")
      ("report-" ++ decimal (year (datetime_now w)) ++ "-" ++
       zero_pad 2 (month (datetime_now w)) ++ "-" ++
       zero_pad 2 (day (datetime_now w)) ++ "_" ++
       zero_pad 2 (hour (datetime_now w)) ++ "." ++
       zero_pad 2 (minute (datetime_now w)) ++ "." ++
       zero_pad 2 (second (datetime_now w)) ++ ".html") /\
  (plausible (datetime_now w) ->
   String.length (report_file_name (datetime_now w)) = 31%nat) /\
  (forall a b, plausible a -> plausible b ->
     String.compare (report_file_name a) (report_file_name b) = chronological a b).
Proof.
  intros Hb Hs Hr Ho.
  split; [| split; [| split]].
  - destruct r as [n b p]. cbn [network] in Hb. unfold artifact_path in *.
    settle_with Hb. rewrite Hs. step_py. rewrite Hr. step_py. rewrite Ho. step_py.
    split_io w; reflexivity.
  - unfold artifact_path. now rewrite report_file_name_fields.
  - apply report_file_name_length.
  - apply report_file_name_order.
Qed.

Lemma run_writes_report_witness :
  build_model calm_world (network the_job) = Ret (ModelObj 1) /\
  solve_model calm_world (ModelObj 1) = Ret (ResultObj 1) /\
  generate_report calm_world (ModelObj 1) (ResultObj 1) = Ret "<html></html>" /\
  py_open calm_world (artifact_path calm_world) "w" = None /\
  filter is_file_event (log (run calm_world the_job)) =
    [EvOpen "/home/user/report-2021-03-07_09.05.42.html" "w";
     EvFileWrite "/home/user/report-2021-03-07_09.05.42.html" "<html></html>";
     EvFileClose "/home/user/report-2021-03-07_09.05.42.html"] /\
  plausible a_moment /\ plausible a_later_moment /\
  String.compare (report_file_name a_moment) (report_file_name a_later_moment)
    = chronological a_moment a_later_moment.
Proof.
  assert (Ha : plausible a_moment) by (unfold plausible; cbn; lia).
  assert (Hb : plausible a_later_moment) by (unfold plausible; cbn; lia).
  do 4 (split; [reflexivity |]).
  destruct (run_writes_report calm_world the_job (ModelObj 1) (ResultObj 1)
              "<html></html>" eq_refl eq_refl eq_refl eq_refl)
    as (Hf & _ & _ & Ho).
  split; [exact Hf |].
  split; [exact Ha |].
  split; [exact Hb | exact (Ho a_moment a_later_moment Ha Hb)].
Defined.

(** * Further properties of the module *)

(** ** ModelSolveRunnable.run, path by path *)

(** Case analysis on the answers of the world, one call at a time, in the
    order [run] makes them. *)
Ltac explore w :=
  repeat (step_py;
    match goal with
    | |- context [build_model w ?n] =>
        destruct (build_model w n) as [? | [? | ?]] eqn:?
    | |- context [solve_model w ?m] =>
        destruct (solve_model w m) as [? | [? | ?]] eqn:?
    | |- context [generate_report w ?m ?r] =>
        destruct (generate_report w m r) as [? | [? | ?]] eqn:?
    | |- context [py_open w ?p ?m] => destruct (py_open w p m) eqn:?
    | |- context [file_write w ?p ?c] => destruct (file_write w p c) eqn:?
    | |- context [file_close w ?p] => destruct (file_close w p) eqn:?
    | |- context [webbrowser_open w ?p] => destruct (webbrowser_open w p) eqn:?
    end).

(** X1. A [CVRPException] raised by any of the three stages is shown in
    one critical box with its message; no file call and no viewer call is
    made, and [run] returns. *)
Theorem run_domain_failure (w : World) (r : ModelSolveRunnable) (message : string) :
  stage_raises w (network r) (CVRPException message) ->
  filter is_error_surface (log (run w r)) = [error_box message] /\
  filter is_file_event (log (run w r)) = [] /\
  filter is_viewer (log (run w r)) = [] /\
  out (run w r) = Ret tt.
Proof.
  intro H. destruct r as [n b p]. unfold stage_raises in H. cbn [network] in H.
  destruct H as [Hb | [(m & Hb & Hs) | (m & res & Hb & Hs & Hr)]].
  - settle_with Hb. repeat split.
  - settle_with Hb. rewrite Hs. step_py. repeat split.
  - settle_with Hb. rewrite Hs. step_py. rewrite Hr. step_py. repeat split.
Qed.

Lemma run_domain_failure_witness :
  stage_raises world_build_rejects (network the_job)
    (CVRPException "No feasible routes") /\
  out (run world_build_rejects the_job) = Ret tt.
Proof.
  assert (H : stage_raises world_build_rejects (network the_job)
                (CVRPException "No feasible routes")) by (left; reflexivity).
  split; [exact H |].
  exact (proj2 (proj2 (proj2
    (run_domain_failure world_build_rejects the_job "No feasible routes" H)))).
Defined.

(** X2. Whatever happens, [run] shows at most one message box, and a box
    it shows carries the message of a [CVRPException] that one of the
    stages raised: no other failure is ever shown. *)
Theorem run_error_box_only_for_domain_failure (w : World) (r : ModelSolveRunnable) :
  filter is_error_surface (log (run w r)) = [] \/
  exists message,
    stage_raises w (network r) (CVRPException message) /\
    filter is_error_surface (log (run w r)) = [error_box message].
Proof.
  destruct r as [n b p]. unfold stage_raises. cbn [network].
  explore w;
    first [ left; reflexivity
          | solve [right; eexists; split; [| reflexivity]; eauto 10] ].
Qed.

(** X3. No [CVRPException] ever leaves [run]: it returns, or it raises an
    exception foreign to the package. *)
Theorem run_never_raises_domain_exception (w : World) (r : ModelSolveRunnable)
    (message : string) :
  out (run w r) <> Raise (CVRPException message).
Proof.
  destruct r as [n b p]. explore w; discriminate.
Qed.

(** X4. In every job built by [__init__], there are as many progress
    reports as stages called, between one and three, and they are the
    first ones of (0, building), (1, searching), (2, generating): a stage
    is never called without its report, and the value never reaches 3. *)
Theorem run_progress_matches_stages (w : World) (n : Network) (b : QProgressDialog) :
  let tr := log (run w (ModelSolveRunnable_init n b)) in
  progress_calls tr = firstn (List.length (filter is_stage tr)) full_progress /\
  (1 <= List.length (filter is_stage tr) <= 3)%nat.
Proof.
  intro tr. subst tr. explore w; (split; [reflexivity | cbn; lia]).
Qed.

(** X5. The log of a job in which every call succeeds, in order: the
    three reports and stages, the file opened, written and closed, then
    the viewer, then the pause of 500 ms, then the closing of the dialog. *)
Theorem run_complete_log (w : World) (n : Network) (b : QProgressDialog)
    (model : CVRPModel) (result : SolveResult) (report : string) :
  build_model w n = Ret model ->
  solve_model w model = Ret result ->
  generate_report w model result = Ret report ->
  file_saved w report ->
  webbrowser_open w (artifact_path w) = None ->
  log (run w (ModelSolveRunnable_init n b)) =
    [EvInvokeMethod b "setValue" QueuedConnection (Q_ARG_int 0);
     EvInvokeMethod b "setLabelText" QueuedConnection (Q_ARG_str "Building model...");
     EvBuildModel n;
     EvInvokeMethod b "setValue" QueuedConnection (Q_ARG_int 1);
     EvInvokeMethod b "setLabelText" QueuedConnection
       (Q_ARG_str "Searching for a solution...");
     EvSolveModel model;
     EvInvokeMethod b "setValue" QueuedConnection (Q_ARG_int 2);
     EvInvokeMethod b "setLabelText" QueuedConnection
       (Q_ARG_str "Generating report...");
     EvGenerateReport model result;
     EvOpen (artifact_path w) "w";
     EvFileWrite (artifact_path w) report;
     EvFileClose (artifact_path w);
     EvWebbrowserOpen (artifact_path w);
     EvMsleep 500;
     EvBarClose b] /\
  out (run w (ModelSolveRunnable_init n b)) = Ret tt.
Proof.
  intros Hb Hs Hr (Ho & Hw & Hc) Hv. unfold artifact_path in *.
  settle_with Hb. rewrite Hs. step_py. rewrite Hr. step_py.
  rewrite Ho. step_py. rewrite Hw. step_py. rewrite Hc. step_py.
  rewrite Hv. step_py. split; reflexivity.
Qed.

Lemma run_complete_log_witness :
  build_model calm_world small_network = Ret (ModelObj 1) /\
  solve_model calm_world (ModelObj 1) = Ret (ResultObj 1) /\
  generate_report calm_world (ModelObj 1) (ResultObj 1) = Ret "<html></html>" /\
  file_saved calm_world "<html></html>" /\
  webbrowser_open calm_world (artifact_path calm_world) = None /\
  out (run calm_world the_job) = Ret tt.
Proof.
  assert (Hf : file_saved calm_world "<html></html>") by (repeat split).
  do 3 (split; [reflexivity |]).
  split; [exact Hf |]. split; [reflexivity |].
  exact (proj2 (run_complete_log calm_world small_network solving_dialog
                  (ModelObj 1) (ResultObj 1) "<html></html>"
                  eq_refl eq_refl eq_refl Hf eq_refl)).
Defined.

(** X6. When [open] raises, nothing is written or closed, the viewer is
    not started, nothing is shown to the user, and the exception of
    [open] leaves [run]. *)
Theorem run_open_failure (w : World) (r : ModelSolveRunnable) (report : string)
    (f : fault) :
  stages_return w (network r) report ->
  py_open w (artifact_path w) "w" = Some f ->
  filter is_file_event (log (run w r)) = [EvOpen (artifact_path w) "w"] /\
  filter is_viewer (log (run w r)) = [] /\
  filter is_error_surface (log (run w r)) = [] /\
  out (run w r) = Raise (Fault f).
Proof.
  intros (m & res & Hb & Hs & Hr) Ho. destruct r as [n b p].
  cbn [network] in Hb. unfold artifact_path in *.
  settle_with Hb. rewrite Hs. step_py. rewrite Hr. step_py. rewrite Ho. step_py.
  repeat split.
Qed.

(** X7. When the file is opened and [write] raises, the file is still
    closed, once; the viewer is not started and nothing is shown.  The
    exception that leaves [run] is the one of [write], unless closing
    raises too, which then takes its place. *)
Theorem run_write_failure (w : World) (r : ModelSolveRunnable) (report : string)
    (f : fault) :
  stages_return w (network r) report ->
  py_open w (artifact_path w) "w" = None ->
  file_write w (artifact_path w) report = Some f ->
  filter is_file_event (log (run w r)) =
    [EvOpen (artifact_path w) "w";
     EvFileWrite (artifact_path w) report;
     EvFileClose (artifact_path w)] /\
  filter is_viewer (log (run w r)) = [] /\
  filter is_error_surface (log (run w r)) = [] /\
  out (run w r) =
    Raise (Fault (match file_close w (artifact_path w) with
                  | Some f' => f'
                  | None => f
                  end)).
Proof.
  intros (m & res & Hb & Hs & Hr) Ho Hw. destruct r as [n b p].
  cbn [network] in Hb. unfold artifact_path in *.
  settle_with Hb. rewrite Hs. step_py. rewrite Hr. step_py. rewrite Ho. step_py.
  rewrite Hw. step_py.
  destruct (file_close w _); repeat split.
Qed.

(** X8. The viewer is started exactly when the three stages returned and
    the report was opened, written and closed without an exception; it is
    then started once, on the artifact path. *)
Theorem run_viewer_iff_saved (w : World) (r : ModelSolveRunnable) :
  ((exists report, stages_return w (network r) report /\ file_saved w report) ->
   filter is_viewer (log (run w r)) = [EvWebbrowserOpen (artifact_path w)]) /\
  (filter is_viewer (log (run w r)) <> [] ->
   exists report, stages_return w (network r) report /\ file_saved w report).
Proof.
  destruct r as [n b p]. cbn [network].
  unfold stages_return, file_saved, artifact_path. split.
  - intros (report & (m & res & Hb & Hs & Hr) & Ho & Hw & Hc).
    settle_with Hb. rewrite Hs. step_py. rewrite Hr. step_py.
    rewrite Ho. step_py. rewrite Hw. step_py. rewrite Hc. step_py.
    destruct (webbrowser_open w _); reflexivity.
  - explore w; intro H; try (exfalso; apply H; reflexivity);
      solve [eexists; (split; [do 2 eexists |]); eauto].
Qed.

(** X9. When the viewer cannot be started, its exception leaves [run]:
    the report is on disk by then, the pause is skipped and nothing is
    shown to the user. *)
Theorem run_viewer_failure (w : World) (r : ModelSolveRunnable) (report : string)
    (f : fault) :
  stages_return w (network r) report ->
  file_saved w report ->
  webbrowser_open w (artifact_path w) = Some f ->
  out (run w r) = Raise (Fault f) /\
  filter is_file_event (log (run w r)) =
    [EvOpen (artifact_path w) "w";
     EvFileWrite (artifact_path w) report;
     EvFileClose (artifact_path w)] /\
  filter is_sleep (log (run w r)) = [] /\
  filter is_error_surface (log (run w r)) = [].
Proof.
  intros (m & res & Hb & Hs & Hr) (Ho & Hw & Hc) Hv. destruct r as [n b p].
  cbn [network] in Hb. unfold artifact_path in *.
  settle_with Hb. rewrite Hs. step_py. rewrite Hr. step_py. rewrite Ho. step_py.
  rewrite Hw. step_py. rewrite Hc. step_py. rewrite Hv. step_py.
  repeat split.
Qed.

(** X10. [run] returns exactly in two cases: every call succeeded, or a
    stage raised a [CVRPException]. *)
Theorem run_returns_iff (w : World) (r : ModelSolveRunnable) :
  out (run w r) = Ret tt <->
  (exists report,
     stages_return w (network r) report /\ file_saved w report /\
     webbrowser_open w (artifact_path w) = None) \/
  (exists message, stage_raises w (network r) (CVRPException message)).
Proof.
  split.
  - destruct r as [n b p]. cbn [network].
    unfold stages_return, file_saved, stage_raises, artifact_path.
    explore w; intro H; try discriminate H;
      first [ solve [right; eexists; eauto 10]
            | solve [left; eexists; split; [do 2 eexists |]; eauto 10] ].
  - intros [(report & (m & res & Hb & Hs & Hr) & (Ho & Hw & Hc) & Hv) | (message & H)].
    + destruct r as [n b p]. cbn [network] in Hb. unfold artifact_path in *.
      settle_with Hb. rewrite Hs. step_py. rewrite Hr. step_py.
      rewrite Ho. step_py. rewrite Hw. step_py. rewrite Hc. step_py.
      rewrite Hv. reflexivity.
    + destruct r as [n b p]. unfold stage_raises in H. cbn [network] in H.
      destruct H as [Hb | [(m & Hb & Hs) | (m & res & Hb & Hs & Hr)]].
      * settle_with Hb. reflexivity.
      * settle_with Hb. rewrite Hs. reflexivity.
      * settle_with Hb. rewrite Hs. step_py. rewrite Hr. reflexivity.
Qed.

(** X11. [run] never assigns to the runnable: network, dialog and
    progress field are after the job what they were before it, whatever
    its outcome. *)
Theorem run_leaves_runnable (w : World) (r : ModelSolveRunnable) :
  self_after (run w r) = r.
Proof.
  unfold run, try_finally. cbn [self_after].
  destruct (guarded_part_never_closes w r) as [_ Hs]. rewrite Hs.
  reflexivity.
Qed.

Lemma run_open_failure_witness :
  stages_return (io_world (Some (OSError "Permission denied")) None None None)
    (network the_job) "<html></html>" /\
  out (run (io_world (Some (OSError "Permission denied")) None None None) the_job)
    = Raise (Fault (OSError "Permission denied")).
Proof.
  assert (H : stages_return (io_world (Some (OSError "Permission denied")) None None None)
                (network the_job) "<html></html>").
  { exists (ModelObj 1), (ResultObj 1). repeat split. }
  split; [exact H |].
  exact (proj2 (proj2 (proj2
    (run_open_failure _ the_job "<html></html>" (OSError "Permission denied")
       H eq_refl)))).
Defined.

Lemma run_write_failure_witness :
  stages_return (io_world None (Some (OSError "No space left on device")) None None)
    (network the_job) "<html></html>" /\
  filter is_viewer
    (log (run (io_world None (Some (OSError "No space left on device")) None None)
              the_job)) = [] /\
  out (run (io_world None (Some (OSError "No space left on device")) None None) the_job)
    = Raise (Fault (OSError "No space left on device")).
Proof.
  assert (H : stages_return
                (io_world None (Some (OSError "No space left on device")) None None)
                (network the_job) "<html></html>").
  { exists (ModelObj 1), (ResultObj 1). repeat split. }
  split; [exact H |].
  destruct (run_write_failure _ the_job "<html></html>"
              (OSError "No space left on device") H eq_refl eq_refl)
    as (_ & Hv & _ & Ho).
  split; [exact Hv | exact Ho].
Defined.

Lemma run_viewer_iff_saved_witness :
  (exists report,
     stages_return calm_world (network the_job) report /\
     file_saved calm_world report) /\
  filter is_viewer (log (run calm_world the_job))
    = [EvWebbrowserOpen (artifact_path calm_world)].
Proof.
  assert (H : exists report,
             stages_return calm_world (network the_job) report /\
             file_saved calm_world report).
  { exists "<html></html>". split.
    - exists (ModelObj 1), (ResultObj 1). repeat split.
    - repeat split. }
  split; [exact H |].
  exact (proj1 (run_viewer_iff_saved calm_world the_job) H).
Defined.

Lemma run_viewer_failure_witness :
  stages_return (io_world None None None (Some (OtherError "webbrowser.Error")))
    (network the_job) "<html></html>" /\
  file_saved (io_world None None None (Some (OtherError "webbrowser.Error")))
    "<html></html>" /\
  out (run (io_world None None None (Some (OtherError "webbrowser.Error"))) the_job)
    = Raise (Fault (OtherError "webbrowser.Error")).
Proof.
  assert (H : stages_return
                (io_world None None None (Some (OtherError "webbrowser.Error")))
                (network the_job) "<html></html>").
  { exists (ModelObj 1), (ResultObj 1). repeat split. }
  assert (Hf : file_saved
                 (io_world None None None (Some (OtherError "webbrowser.Error")))
                 "<html></html>") by (repeat split).
  split; [exact H |]. split; [exact Hf |].
  exact (proj1 (run_viewer_failure _ the_job "<html></html>"
                  (OtherError "webbrowser.Error") H Hf eq_refl)).
Defined.

Lemma run_returns_iff_witness :
  (exists message,
     stage_raises world_build_rejects (network the_job) (CVRPException message)) /\
  out (run world_build_rejects the_job) = Ret tt.
Proof.
  assert (H : exists message,
             stage_raises world_build_rejects (network the_job)
               (CVRPException message)).
  { exists "No feasible routes". left. reflexivity. }
  split; [exact H |].
  exact (proj2 (run_returns_iff world_build_rejects the_job) (or_intror H)).
Defined.

(** ** MainWidget.on_click_solve, over a session *)

(** The two ways the handler gets to its last statement. *)
Lemma on_click_solve_submits (w : World) (s : MainWidget) :
  check_solvability w (mw_network s) = Ret tt ->
  on_click_solve w s =
    mkRes (Ret tt)
      (mkMainWidget (mw_network s) (mkPushButton (pb_text (solve s)) false))
      [EvSetDisabled "solve" true;
       EvCheckSolvability (mw_network s);
       EvDialogCreate (QProgressDialog_new "" "Cancel" 0 3);
       EvDialogShow solving_dialog;
       EvThreadPoolStart (ModelSolveRunnable_init (mw_network s) solving_dialog);
       EvSetDisabled "solve" false].
Proof.
  destruct s as [n b]. cbn [mw_network]. intro E. settle_with E. reflexivity.
Qed.

Lemma on_click_solve_rejects (w : World) (s : MainWidget) (message : string) :
  check_solvability w (mw_network s) = Raise (CVRPException message) ->
  on_click_solve w s =
    mkRes (Ret tt)
      (mkMainWidget (mw_network s) (mkPushButton (pb_text (solve s)) false))
      [EvSetDisabled "solve" true;
       EvCheckSolvability (mw_network s);
       error_box message;
       EvSetDisabled "solve" false].
Proof.
  destruct s as [n b]. cbn [mw_network]. intro E. settle_with E. reflexivity.
Qed.

Lemma on_click_solve_faults (w : World) (s : MainWidget) (f : fault) :
  check_solvability w (mw_network s) = Raise (Fault f) ->
  on_click_solve w s =
    mkRes (Raise (Fault f))
      (mkMainWidget (mw_network s) (mkPushButton (pb_text (solve s)) true))
      [EvSetDisabled "solve" true; EvCheckSolvability (mw_network s)].
Proof.
  destruct s as [n b]. cbn [mw_network]. intro E. settle_with E. reflexivity.
Qed.

Lemma click_solve_enabled (w : World) (s : MainWidget) :
  pb_disabled (solve s) = false -> click_solve w s = on_click_solve w s.
Proof.
  intro H. unfold click_solve at 1, bind, get. cbn [out self_after log].
  rewrite H. destruct (on_click_solve w s) as [o s' l].
  cbn [out self_after log app]. now destruct o.
Qed.

(** X12. In every world the handler leaves the network and the caption of
    the button as they were; a job is handed to the thread pool exactly
    when the check returns, one job, on the widget's network and for the
    dialog just shown; a box is shown exactly when the check raises a
    [CVRPException]. *)
Theorem on_click_solve_submits_iff_check_returns (w : World) (s : MainWidget) :
  let r := on_click_solve w s in
  mw_network (self_after r) = mw_network s /\
  pb_text (solve (self_after r)) = pb_text (solve s) /\
  filter is_submission (log r) =
    (if check_passes (mw_network s) w
     then [EvThreadPoolStart (ModelSolveRunnable_init (mw_network s) solving_dialog)]
     else []) /\
  filter is_progress_surface (log r) =
    (if check_passes (mw_network s) w
     then [EvDialogCreate (QProgressDialog_new "" "Cancel" 0 3);
           EvDialogShow solving_dialog]
     else []) /\
  filter is_error_surface (log r) =
    match check_solvability w (mw_network s) with
    | Raise (CVRPException message) => [error_box message]
    | _ => []
    end.
Proof.
  intro r. subst r. unfold check_passes.
  destruct (check_solvability w (mw_network s)) as [[] | [message | f]] eqn:E.
  - rewrite (on_click_solve_submits w s E). repeat split.
  - rewrite (on_click_solve_rejects w s message E). repeat split.
  - rewrite (on_click_solve_faults w s f E). repeat split.
Qed.

Lemma clicks_app (ws1 ws2 : list World) (s : MainWidget) :
  clicks (ws1 ++ ws2) s =
    (fst (clicks ws2 (fst (clicks ws1 s))),
     (snd (clicks ws1 s) ++ snd (clicks ws2 (fst (clicks ws1 s))))%list).
Proof.
  revert s. induction ws1 as [| w ws1 IH]; intro s.
  - cbn. now destruct (clicks ws2 s).
  - cbn [clicks app fst snd]. rewrite IH. cbn [fst snd].
    now rewrite app_assoc.
Qed.

Lemma clicks_settling (ws : list World) (s : MainWidget) :
  pb_disabled (solve s) = false ->
  Forall (check_settles (mw_network s)) ws ->
  pb_disabled (solve (fst (clicks ws s))) = false /\
  mw_network (fst (clicks ws s)) = mw_network s /\
  List.length (filter is_submission (snd (clicks ws s)))
    = List.length (filter (check_passes (mw_network s)) ws) /\
  (List.length (filter is_error_surface (snd (clicks ws s)))
   + List.length (filter (check_passes (mw_network s)) ws))%nat = List.length ws.
Proof.
  revert s. induction ws as [| w ws IH]; intros s Hd Hall.
  - repeat split; assumption.
  - inversion Hall as [| w' ws' Hw Hws]; subst.
    cbn [clicks fst snd]. rewrite (click_solve_enabled w s Hd).
    assert (Hp : check_passes (mw_network s) w
                 = returned (check_solvability w (mw_network s))) by reflexivity.
    cbn [filter]. rewrite Hp. clear Hp.
    destruct (check_solvability w (mw_network s)) as [[] | [message | f]] eqn:E.
    + rewrite (on_click_solve_submits w s E). cbn [self_after log].
      specialize (IH (mkMainWidget (mw_network s) (mkPushButton (pb_text (solve s)) false))
                     eq_refl Hws).
      cbn [mw_network] in IH. destruct IH as (H1 & H2 & H3 & H4).
      rewrite !filter_app, !length_app. cbn [returned filter is_submission
        is_error_surface error_box List.length app].
      repeat split; [exact H1 | exact H2 | lia | lia].
    + rewrite (on_click_solve_rejects w s message E). cbn [self_after log].
      specialize (IH (mkMainWidget (mw_network s) (mkPushButton (pb_text (solve s)) false))
                     eq_refl Hws).
      cbn [mw_network] in IH. destruct IH as (H1 & H2 & H3 & H4).
      rewrite !filter_app, !length_app. cbn [returned filter is_submission
        is_error_surface error_box List.length app].
      repeat split; [exact H1 | exact H2 | lia | lia].
    + exfalso. exact (Hw f E).
Qed.

(** X13. Over any number of clicks whose checks return or raise a
    [CVRPException], the button ends enabled and the network is the same;
    there are as many submissions as checks that returned, and one
    message box for each of the others. *)
Theorem clicks_keep_button_enabled (ws : list World) (s : MainWidget) :
  pb_disabled (solve s) = false ->
  Forall (check_settles (mw_network s)) ws ->
  pb_disabled (solve (fst (clicks ws s))) = false /\
  mw_network (fst (clicks ws s)) = mw_network s /\
  List.length (filter is_submission (snd (clicks ws s)))
    = List.length (filter (check_passes (mw_network s)) ws) /\
  (List.length (filter is_error_surface (snd (clicks ws s)))
   + List.length (filter (check_passes (mw_network s)) ws))%nat = List.length ws.
Proof. apply clicks_settling. Qed.

Lemma clicks_keep_button_enabled_witness :
  pb_disabled (solve the_widget) = false /\
  Forall (check_settles (mw_network the_widget))
         [calm_world; world_unsolvable; calm_world] /\
  List.length (filter is_submission
            (snd (clicks [calm_world; world_unsolvable; calm_world] the_widget)))
    = 2%nat.
Proof.
  assert (H : Forall (check_settles (mw_network the_widget))
                     [calm_world; world_unsolvable; calm_world]).
  { repeat constructor; intros f E; discriminate E. }
  split; [reflexivity |]. split; [exact H |].
  exact (proj1 (proj2 (proj2
    (clicks_keep_button_enabled [calm_world; world_unsolvable; calm_world]
       the_widget eq_refl H)))).
Defined.

(** X14. The first click whose check raises a foreign exception ends the
    session of the button: the log of the whole session is the log up to
    that click, the disabling and the check, and nothing after; the button
    ends disabled. *)
Theorem first_fault_ends_session (before after : list World) (w : World)
    (f : fault) (s : MainWidget) :
  pb_disabled (solve s) = false ->
  Forall (check_settles (mw_network s)) before ->
  check_solvability w (mw_network s) = Raise (Fault f) ->
  snd (clicks (before ++ w :: after) s) =
    (snd (clicks before s) ++
     [EvSetDisabled "solve" true; EvCheckSolvability (mw_network s)])%list /\
  pb_disabled (solve (fst (clicks (before ++ w :: after) s))) = true.
Proof.
  intros Hd Hall E.
  destruct (clicks_settling before s Hd Hall) as (Hd' & Hn & _).
  rewrite clicks_app. cbn [fst snd clicks].
  rewrite (click_solve_enabled w _ Hd').
  rewrite <- Hn in E. rewrite (on_click_solve_faults w _ f E).
  cbn [self_after log].
  match goal with
  | |- context [clicks after ?s0] =>
      rewrite (clicks_while_disabled after s0 eq_refl)
  end.
  cbn [fst snd]. rewrite app_nil_r, Hn. split; reflexivity.
Qed.

Lemma first_fault_ends_session_witness :
  pb_disabled (solve the_widget) = false /\
  Forall (check_settles (mw_network the_widget)) [calm_world] /\
  check_solvability world_check_fault (mw_network the_widget)
    = Raise (Fault (OtherError "AttributeError")) /\
  pb_disabled (solve (fst (clicks ([calm_world] ++ world_check_fault :: [calm_world])
                                  the_widget))) = true.
Proof.
  assert (H : Forall (check_settles (mw_network the_widget)) [calm_world]).
  { repeat constructor; intros f E; discriminate E. }
  split; [reflexivity |]. split; [exact H |]. split; [reflexivity |].
  exact (proj2 (first_fault_ends_session [calm_world] [calm_world] world_check_fault
                  (OtherError "AttributeError") the_widget eq_refl H eq_refl)).
Defined.

(** X15. The job handed over by the handler, run in any world, closes the
    very dialog the handler showed, and every progress value it reports
    lies in the range of that dialog without reaching its maximum. *)
Theorem submitted_job_fits_dialog (w w' : World) (s : MainWidget) :
  check_solvability w (mw_network s) = Ret tt ->
  exists job dialog,
    filter is_submission (log (on_click_solve w s)) = [EvThreadPoolStart job] /\
    In (EvDialogShow dialog) (log (on_click_solve w s)) /\
    network job = mw_network s /\
    filter is_cleanup (log (run w' job)) = [EvBarClose dialog] /\
    Forall (fun report => pd_minimum dialog <= fst report < pd_maximum dialog)
           (progress_calls (log (run w' job))).
Proof.
  intro E.
  exists (ModelSolveRunnable_init (mw_network s) solving_dialog), solving_dialog.
  rewrite (on_click_solve_submits w s E). cbn [log].
  split; [reflexivity |]. split; [cbn; tauto |]. split; [reflexivity |].
  split; [apply run_cleanup_calls |].
  generalize (mw_network s) as n. intro n.
  explore w'; repeat constructor; cbn; lia.
Qed.

Lemma submitted_job_fits_dialog_witness :
  check_solvability calm_world (mw_network the_widget) = Ret tt /\
  exists job dialog,
    filter is_submission (log (on_click_solve calm_world the_widget))
      = [EvThreadPoolStart job] /\
    In (EvDialogShow dialog) (log (on_click_solve calm_world the_widget)) /\
    network job = mw_network the_widget /\
    filter is_cleanup (log (run world_render_fault job)) = [EvBarClose dialog] /\
    Forall (fun report => pd_minimum dialog <= fst report < pd_maximum dialog)
           (progress_calls (log (run world_render_fault job))).
Proof.
  split; [reflexivity |].
  exact (submitted_job_fits_dialog calm_world world_render_fault the_widget eq_refl).
Defined.

(** ** launch_ui, every answer of get_solvers *)

(** X16. When the solvers are there, [launch_ui] creates the application
    and the main window, asks for the solvers, shows the window, runs the
    event loop and leaves through [sys.exit] with the code the loop
    returned: it does not return. *)
Theorem launch_ui_opens_session (w : World) (network : option Network) :
  get_solvers w = Ret tt ->
  log (launch_ui w network tt) =
    [EvQApplication;
     EvMainWindowCreate (chosen_network w network);
     EvGetSolvers;
     EvMainShow;
     EvAppExec;
     EvSysExit (app_exec w)] /\
  out (launch_ui w network tt) = Raise (Fault (SystemExit (app_exec w))).
Proof.
  intro E. unfold chosen_network. settle_with E. split; reflexivity.
Qed.

Lemma launch_ui_opens_session_witness :
  get_solvers calm_world = Ret tt /\
  out (launch_ui calm_world (Some small_network) tt) = Raise (Fault (SystemExit 0)).
Proof.
  split; [reflexivity |].
  exact (proj2 (launch_ui_opens_session calm_world (Some small_network) eq_refl)).
Defined.

(** X17. [launch_ui] returns only when [get_solvers] raised an
    [EnvironmentError]; the window is shown only when [get_solvers]
    returned; and any other exception of [get_solvers] leaves [launch_ui]
    as it is, with no message box. *)
Theorem launch_ui_outcomes (w : World) (network : option Network) :
  let r := launch_ui w network tt in
  (out r = Ret tt <-> exists what, get_solvers w = Raise (Fault (OSError what))) /\
  (filter is_session_open (log r) <> [] <-> get_solvers w = Ret tt) /\
  (forall e, get_solvers w = Raise e ->
     (forall what, e <> Fault (OSError what)) ->
     out r = Raise e /\ filter is_error_surface (log r) = []).
Proof.
  intro r. subst r. split; [| split].
  - step_py.
    destruct (get_solvers w) as [[] | [message | [what | code | cls]]]; step_py;
      split; intro H;
      try discriminate H;
      try (destruct H as (what' & H); discriminate H);
      try reflexivity.
    exists what. reflexivity.
  - step_py.
    destruct (get_solvers w) as [[] | [message | [what | code | cls]]]; step_py;
      split; intro H;
      try discriminate H;
      try reflexivity;
      try (exfalso; apply H; reflexivity).
    cbn. discriminate.
  - intros e E Hne. settle_with E.
    destruct e as [message | [what | code | cls]]; try (split; reflexivity).
    exfalso. exact (Hne what eq_refl).
Qed.

(** ** The places tab *)

Lemma remove_client_keeps_depot (pol : absent_policy) (n : Network) (p : Place)
    (n' : Network) :
  remove_client pol n p = Ret n' -> depot n' = depot n.
Proof.
  unfold remove_client.
  destruct (remove_first p (clients n)); [| destruct pol]; intro H;
    try discriminate H; injection H as <-; reflexivity.
Qed.

(** What [on_item_remove] amounts to when [remove_client] returns. *)
Lemma on_item_remove_ok (w : World) (s : PlacesTabWidget) (item : PlaceListItem)
    (n' : Network) :
  remove_client (remove_absent w) (tab_network s) (place item) = Ret n' ->
  on_item_remove w item s =
    mkRes (Ret tt)
      (mkPlacesTab n' (mkPushButton (pb_text (ab_edit s)) true)
         (mkPushButton (pb_text (ab_remove s)) true)
         (mkPlaceList (map (fun p => PlaceListItem_init p true) (all_places n')) None))
      [EvRemoveClient (place item);
       EvSetDisabled "ab_remove" true;
       EvSetDisabled "ab_edit" true].
Proof.
  destruct s as [n e rm l]. cbn [tab_network]. intro E.
  step_tab. rewrite E. step_tab. reflexivity.
Qed.

(** And when it raises. *)
Lemma on_item_remove_raises (w : World) (s : PlacesTabWidget) (item : PlaceListItem)
    (e : exn) :
  remove_client (remove_absent w) (tab_network s) (place item) = Raise e ->
  on_item_remove w item s = mkRes (Raise e) s [EvRemoveClient (place item)].
Proof.
  destruct s as [n ed rm l]. cbn [tab_network]. intro E.
  step_tab. rewrite E. step_tab. reflexivity.
Qed.

(** X18. With a row selected, Edit is enabled whatever the row, the depot
    included; the two buttons are set from the row's place alone (the
    [removable] flag and the text of the row play no part), and neither
    the network nor the list is touched. *)
Theorem update_action_buttons_reads_place_only (s : PlacesTabWidget)
    (item : PlaceListItem) :
  let s' := self_after (update_action_buttons (Some item) s) in
  pb_disabled (ab_edit s') = false /\
  tab_network s' = tab_network s /\
  items_list s' = items_list s /\
  forall item', place item' = place item ->
    update_action_buttons (Some item') s = update_action_buttons (Some item) s.
Proof.
  destruct s as [n e rm l]. cbn zeta. repeat split.
  intros item' H. step_tab. now rewrite H.
Qed.

(** X19. After [on_item_remove] returns, the rows are the depot followed
    by the clients of the network [remove_client] gave back, no row is
    current, Edit and Remove are disabled, and a click on Remove does
    nothing until a row is clicked again. *)
Theorem on_item_remove_refreshes (w w' : World) (s : PlacesTabWidget)
    (item : PlaceListItem) (n' : Network) :
  remove_client (remove_absent w) (tab_network s) (place item) = Ret n' ->
  let s' := self_after (on_item_remove w item s) in
  tab_network s' = n' /\
  map place (items (items_list s')) = depot n' :: clients n' /\
  current_item (items_list s') = None /\
  pb_disabled (ab_edit s') = true /\
  pb_disabled (ab_remove s') = true /\
  click_remove w' s' = mkRes (Ret tt) s' [].
Proof.
  intros E s'. subst s'. rewrite (on_item_remove_ok w s item n' E).
  cbn [self_after tab_network items_list items current_item ab_edit ab_remove
       pb_disabled].
  repeat split.
  rewrite map_map. cbn [PlaceListItem_init place]. now rewrite map_id.
Qed.

Lemma on_item_remove_refreshes_witness :
  remove_client (remove_absent calm_world) (tab_network the_tab)
    (place (PlaceListItem_init client_a true))
    = Ret (mkNetwork the_depot [client_b] [the_vehicle]) /\
  map place (items (items_list
    (self_after (on_item_remove calm_world (PlaceListItem_init client_a true) the_tab))))
    = [the_depot; client_b].
Proof.
  split; [reflexivity |].
  exact (proj1 (proj2
    (on_item_remove_refreshes calm_world calm_world the_tab
       (PlaceListItem_init client_a true)
       (mkNetwork the_depot [client_b] [the_vehicle]) eq_refl))).
Defined.

(** X20. When [remove_client] raises, the exception leaves
    [on_item_remove] and the tab is as before: the list is not rebuilt and
    the buttons keep their state. *)
Theorem on_item_remove_failure (w : World) (s : PlacesTabWidget)
    (item : PlaceListItem) (e : exn) :
  remove_client (remove_absent w) (tab_network s) (place item) = Raise e ->
  out (on_item_remove w item s) = Raise e /\
  self_after (on_item_remove w item s) = s /\
  log (on_item_remove w item s) = [EvRemoveClient (place item)].
Proof.
  intro E. rewrite (on_item_remove_raises w s item e E). repeat split.
Qed.

Lemma on_item_remove_failure_witness :
  remove_client (remove_absent calm_world) (tab_network the_tab)
    (place (PlaceListItem_init the_depot true))
    = Raise (Fault (OtherError "ValueError")) /\
  self_after (on_item_remove calm_world (PlaceListItem_init the_depot true) the_tab)
    = the_tab.
Proof.
  split; [reflexivity |].
  exact (proj1 (proj2
    (on_item_remove_failure calm_world the_tab (PlaceListItem_init the_depot true)
       (Fault (OtherError "ValueError")) eq_refl))).
Defined.

(** One action keeps the guard, keeps the depot, and calls
    [remove_client] on no place identical to the depot. *)
Lemma tab_step_keeps_guard (w : World) (a : tab_action) (s : PlacesTabWidget) :
  guard_ok s ->
  guard_ok (self_after (tab_step w a s)) /\
  depot (tab_network (self_after (tab_step w a s))) = depot (tab_network s) /\
  Forall (spares (depot (tab_network s))) (log (tab_step w a s)).
Proof.
  intro G. destruct a as [item |]; cbn [tab_step].
  - destruct s as [n e rm l]. step_tab. cbn [guard_ok tab_network] in *.
    split; [| split; [reflexivity | repeat constructor]].
    unfold guard_ok. cbn [ab_remove pb_disabled items_list current_item tab_network].
    intro H. exists item. split; [reflexivity | exact H].
  - unfold click_remove, bind, get. cbn [out self_after log].
    destruct (pb_disabled (ab_remove s)) eqn:D.
    + cbn [ret out self_after log app]. repeat split; [exact G | constructor].
    + destruct (G D) as (item & Hc & Hp).
      unfold remove_item, bind, get. cbn [out self_after log]. rewrite Hc.
      destruct (remove_client (remove_absent w) (tab_network s) (place item))
        as [n' | e] eqn:E.
      * rewrite (on_item_remove_ok w s item n' E).
        cbn [out self_after log app tab_network].
        split; [| split].
        -- intro H. discriminate H.
        -- exact (remove_client_keeps_depot _ _ _ _ E).
        -- repeat constructor. exact Hp.
      * rewrite (on_item_remove_raises w s item e E).
        cbn [out self_after log app].
        split; [exact G | split; [reflexivity |]].
        repeat constructor. exact Hp.
Qed.

Lemma tab_session_keeps_guard (acts : list (World * tab_action)) (s : PlacesTabWidget) :
  guard_ok s ->
  guard_ok (fst (tab_session acts s)) /\
  depot (tab_network (fst (tab_session acts s))) = depot (tab_network s) /\
  Forall (spares (depot (tab_network s))) (snd (tab_session acts s)).
Proof.
  revert s. induction acts as [| [w a] acts IH]; intros s G.
  - repeat split; [exact G | constructor].
  - cbn [tab_session fst snd].
    destruct (tab_step_keeps_guard w a s G) as (G' & Hd & Hl).
    destruct (IH _ G') as (G'' & Hd' & Hl').
    split; [exact G'' |]. split; [congruence |].
    apply Forall_app. split; [exact Hl |]. now rewrite <- Hd.
Qed.

(** X21. From the tab as [__init__] leaves it, through any sequence of
    clicks on rows and on Remove, in any worlds, [remove_client] is never
    called on the depot and the depot of the network stays the same. *)
Theorem places_tab_never_removes_depot (n : Network)
    (acts : list (World * tab_action)) :
  let session := tab_session acts (PlacesTabWidget_init n) in
  Forall (spares (depot n)) (snd session) /\
  depot (tab_network (fst session)) = depot n.
Proof.
  intro session. subst session.
  assert (G : guard_ok (PlacesTabWidget_init n)).
  { intro H. discriminate H. }
  destruct (tab_session_keeps_guard acts _ G) as (_ & Hd & Hl).
  split; [exact Hl | exact Hd].
Qed.

Lemma launch_ui_outcomes_witness :
  (exists what, get_solvers world_no_solvers = Raise (Fault (OSError what))) /\
  out (launch_ui world_no_solvers None tt) = Ret tt.
Proof.
  assert (H : exists what,
             get_solvers world_no_solvers = Raise (Fault (OSError what))).
  { exists "No solvers". reflexivity. }
  split; [exact H |].
  exact (proj2 (proj1 (launch_ui_outcomes world_no_solvers None)) H).
Defined.

Lemma update_action_buttons_reads_place_only_witness :
  place (mkPlaceListItem "renamed" the_depot false)
    = place (PlaceListItem_init the_depot true) /\
  update_action_buttons (Some (mkPlaceListItem "renamed" the_depot false)) the_tab
    = update_action_buttons (Some (PlaceListItem_init the_depot true)) the_tab.
Proof.
  split; [reflexivity |].
  exact (proj2 (proj2 (proj2
    (update_action_buttons_reads_place_only the_tab
       (PlaceListItem_init the_depot true))))
    (mkPlaceListItem "renamed" the_depot false) eq_refl).
Defined.

(** ** The vehicles tab *)

Ltac step_vtab :=
  cbv beta iota zeta delta
    [vtab_update_action_buttons vtab_ab_remove_setDisabled
     vtab_ab_edit_setDisabled is_selected_vehicle_valid update_vehicles
     vtab_on_editor_close vtab_on_item_remove vtab_remove_item
     vtab_item_clicked vtab_click_remove
     bind call emit get put ret of_outcome out self_after log app
     vtab_network vtab_ab_edit vtab_ab_remove vtab_items_list
     vehicle_items current_vehicle_item
     setDisabled pb_disabled pb_text Bool.eqb].

(** X22. The vehicles tab protects no row: after a click on any row, Edit
    and Remove are both enabled, and a click on Remove hands that row's
    vehicle to [remove_vehicle].  When that returns, the tab holds the
    network it gave back, the rows are its vehicles in order, no row is
    current and both buttons are disabled; when it raises, the exception
    leaves the slot. *)
Theorem vehicles_tab_remove_unguarded (w : World) (s : VehiclesTabWidget)
    (item : VehicleListItem) :
  let s1 := self_after (vtab_item_clicked item s) in
  let r := vtab_click_remove w s1 in
  pb_disabled (vtab_ab_edit s1) = false /\
  pb_disabled (vtab_ab_remove s1) = false /\
  match remove_vehicle (remove_absent w) (vtab_network s) (vehicle item) with
  | Ret n' =>
      out r = Ret tt /\
      vtab_network (self_after r) = n' /\
      map vehicle (vehicle_items (vtab_items_list (self_after r))) = vehicles n' /\
      current_vehicle_item (vtab_items_list (self_after r)) = None /\
      pb_disabled (vtab_ab_edit (self_after r)) = true /\
      pb_disabled (vtab_ab_remove (self_after r)) = true
  | Raise e => out r = Raise e /\ self_after r = s1
  end.
Proof.
  destruct s as [n e rm l]. cbn zeta. step_vtab.
  split; [reflexivity |]. split; [reflexivity |].
  destruct (remove_vehicle (remove_absent w) n (vehicle item)) as [n' | ex];
    step_vtab.
  - repeat split. rewrite map_map. cbn [VehicleListItem_init vehicle].
    now rewrite map_id.
  - split; reflexivity.
Qed.

(** ** Report names *)

Lemma then_compare_Eq (c k : comparison) :
  then_compare c k = Eq -> c = Eq /\ k = Eq.
Proof. destruct c; cbn; intro H; try discriminate H; split; [reflexivity | exact H]. Qed.

(** X23. Two plausible moments give the same report name only when they
    are the same second: a report is overwritten only by a job started
    within the same second. *)
Theorem report_file_name_injective (a b : datetime) :
  plausible a -> plausible b ->
  report_file_name a = report_file_name b -> a = b.
Proof.
  intros Ha Hb E.
  pose proof (report_file_name_order a b Ha Hb) as H.
  rewrite E, compare_refl in H. symmetry in H. unfold chronological in H.
  repeat match type of H with
  | then_compare _ _ = Eq =>
      apply then_compare_Eq in H;
      let H1 := fresh "F" in destruct H as [H1 H];
      apply Z.compare_eq in H1
  end.
  apply Z.compare_eq in H.
  destruct a, b. cbn in *. congruence.
Qed.

Lemma report_file_name_injective_witness :
  plausible a_moment /\
  report_file_name a_moment = report_file_name (mkDatetime 2021 3 7 9 5 42) /\
  a_moment = mkDatetime 2021 3 7 9 5 42.
Proof.
  assert (H : plausible a_moment) by (unfold plausible; cbn; lia).
  split; [exact H |]. split; [reflexivity |].
  exact (report_file_name_injective a_moment (mkDatetime 2021 3 7 9 5 42) H H eq_refl).
Defined.

(** ** The places tab: rows that are not the depot *)

(** X24. After a click on a row whose place is not the depot, Remove is
    enabled and a click on it runs [on_item_remove] on that row: the
    first thing logged is the call of [remove_client] on the row's
    place. *)
Theorem click_remove_after_selecting_client (w : World) (s : PlacesTabWidget)
    (item : PlaceListItem) :
  place_eqb (place item) (depot (tab_network s)) = false ->
  let s1 := self_after (item_clicked item s) in
  pb_disabled (ab_remove s1) = false /\
  click_remove w s1 = on_item_remove w item s1 /\
  exists rest, log (click_remove w s1) = EvRemoveClient (place item) :: rest.
Proof.
  destruct s as [n e rm l]. cbn [tab_network]. intro H. cbn zeta.
  step_tab. rewrite H.
  destruct (remove_client (remove_absent w) n (place item)) as [n' | ex];
    (split; [reflexivity | split; [reflexivity | eexists; reflexivity]]).
Qed.

Lemma click_remove_after_selecting_client_witness :
  place_eqb (place (PlaceListItem_init client_b true)) (depot (tab_network the_tab))
    = false /\
  exists rest,
    log (click_remove calm_world
           (self_after (item_clicked (PlaceListItem_init client_b true) the_tab)))
      = EvRemoveClient client_b :: rest.
Proof.
  split; [reflexivity |].
  exact (proj2 (proj2
    (click_remove_after_selecting_client calm_world the_tab
       (PlaceListItem_init client_b true) eq_refl))).
Defined.
